(** * split-bot-telegram: the relay bot's handlers and outbound client

    A shallow embedding of [ai.py] and [main.py].  Python values that cross
    the JSON boundary are the type [value]; every call that leaves the
    process (Telegram's [reply_text], [delete] and [get_file], the HTTP
    POST) is answered by a [world], which sees the whole history of the run
    and may return or raise.  A handler is a function from the history to
    the events it emits and its outcome.

    Outside the model: [BaseException]s that are not [Exception]s
    (cancellation, interrupts), which no [except Exception] catches; the
    120 second timeout as a duration (a timeout is a POST that raises);
    the interleaving of concurrent handler runs.  Strings are byte
    strings, on which the substring test agrees with Python's for UTF-8
    text. *)

From stdpp Require Import gmap strings list fin_maps pretty.
From Stdlib Require Import ZArith Floats.PrimFloat.

(** ** Python values *)

#[warnings="-register-all"] Inductive value :=
| VNone
| VBool (b : bool)
| VInt (n : Z)
| VFloat (f : float)
| VStr (s : string)
| VList (l : list value)
| VDict (d : gmap string value).

(** [bool(v)]: what [if v], [not v] and [v or w] test. *)
Definition truthy (v : value) : bool :=
  match v with
  | VNone => false
  | VBool b => b
  | VInt n => negb (n =? 0)%Z
  | VFloat f => negb (PrimFloat.eqb f 0%float)
  | VStr s => negb (String.eqb s "")
  | VList l => match l with [] => false | _ :: _ => true end
  | VDict d => match map_to_list d with [] => false | _ :: _ => true end
  end.

(** [v or w] *)
Definition py_or (v w : value) : value := if truthy v then v else w.

(** [v != s] for a string literal [s]: only a string can equal a string. *)
Definition ne_str (v : value) (s : string) : bool :=
  match v with
  | VStr s' => negb (String.eqb s' s)
  | _ => true
  end.

(** [type(v).__name__] *)
Definition type_name (v : value) : string :=
  match v with
  | VNone => "NoneType"
  | VBool _ => "bool"
  | VInt _ => "int"
  | VFloat _ => "float"
  | VStr _ => "str"
  | VList _ => "list"
  | VDict _ => "dict"
  end.

(** An [Optional[str]] attribute seen as a Python value. *)
Definition opt_str (o : option string) : value :=
  match o with
  | Some s => VStr s
  | None => VNone
  end.

(** [needle in hay] on [str]: a match may start at any position. *)
Fixpoint substring_in (needle hay : string) : bool :=
  if String.prefix needle hay then true
  else match hay with
       | EmptyString => false
       | String _ rest => substring_in needle rest
       end.

(** ** Exceptions

    Every class below derives from [Exception], so [except Exception]
    catches all of them.  The argument is what [str(e)] returns. *)

Inductive exn :=
| ValueError (msg : string)
| AttributeError (msg : string)
| JSONDecodeError (msg : string)   (* response.json() *)
| HTTPError (msg : string)         (* httpx: transport errors, timeouts *)
| TelegramError (msg : string).    (* telegram.error.* *)

Definition str (e : exn) : string :=
  match e with
  | ValueError msg | AttributeError msg | JSONDecodeError msg
  | HTTPError msg | TelegramError msg => msg
  end.

Inductive result (A : Type) :=
| Ok (a : A)
| Raise (e : exn).
Arguments Ok {A} a.
Arguments Raise {A} e.

(** ** The platform's and the HTTP client's objects *)

Module PhotoSize.
Record t := { file_id : string; width : Z; height : Z }.
Definition pixels (p : t) : Z := width p * height p.
End PhotoSize.

Module Document.
Record t := { file_id : string }.
End Document.

Module User.
Record t := { username : option string }.
End User.

Module Chat.
Record t := { id : Z }.
End Chat.

Module Message.
Record t := {
  text : option string;
  photo : list PhotoSize.t;
  document : option Document.t;
  chat : Chat.t;
  from_user : option User.t
}.
End Message.

Module Update.
Record t := { message : option Message.t }.
End Update.

Module File.
Record t := { file_path : option string }.
End File.

(** [httpx.Response]: the status line and what [response.json()] gives,
    a decoded value or the decoder's exception. *)
Module Response.
Record t := { status_code : Z; json : result value }.
End Response.

(** ** Events and the world *)

Inductive level := INFO | ERROR.

(** A message the bot has sent, by its id ([processing_msg]). *)
Definition sent := Z.

Inductive event :=
| Log (lvl : level) (line : string)
| ReplyText (text : value) (r : result sent)
| Delete (msg : sent) (r : result unit)
| GetFile (file_id : string) (r : result File.t)
| Post (url : string) (body : gmap string value) (r : result Response.t).

Record world := {
  getenv : string → option string;
  reply_text : list event → value → result sent;
  delete : list event → sent → result unit;
  get_file : list event → string → result File.t;
  post : list event → string → gmap string value → result Response.t
}.

(** ** Computations: history in, emitted events and outcome out *)

Definition M (A : Type) : Type := list event → list event * result A.

Definition ret {A} (a : A) : M A := λ _, ([], Ok a).
Definition raise {A} (e : exn) : M A := λ _, ([], Raise e).

Definition bind {A B} (m : M A) (f : A → M B) : M B := λ h,
  match m h with
  | (evs, Ok a) => let '(evs', r) := f a (h ++ evs) in (evs ++ evs', r)
  | (evs, Raise e) => (evs, Raise e)
  end.

(** [try: m except Exception as e: handler e] *)
Definition try_except {A} (m : M A) (handler : exn → M A) : M A := λ h,
  match m h with
  | (evs, Ok a) => (evs, Ok a)
  | (evs, Raise e) => let '(evs', r) := handler e (h ++ evs) in (evs ++ evs', r)
  end.

Definition emit {A} (ask : list event → result A) (ev : result A → event) : M A :=
  λ h, let r := ask h in ([ev r], r).

Definition lift {A} (r : result A) : M A := λ _, ([], r).

#[global] Instance M_ret : MRet M := @ret.
#[global] Instance M_bind : MBind M := λ A B f m, bind m f.

Definition log (lvl : level) (line : string) : M unit :=
  λ _, ([Log lvl line], Ok tt).

(** The events a computation emits after history [h], and how it ends. *)
Definition events {A} (m : M A) (h : list event) : list event := (m h).1.
Definition outcome {A} (m : M A) (h : list event) : result A := (m h).2.

(** ** What a run did, read off its events *)

(** The HTTP requests of a run, in order. *)
Definition outbound_calls (evs : list event) : list (string * gmap string value) :=
  omap (λ ev, match ev with Post url body _ => Some (url, body) | _ => None end) evs.

Definition is_messaging (ev : event) : bool :=
  match ev with
  | ReplyText _ _ | Delete _ _ => true
  | _ => false
  end.

(** The chat actions of a run (replies and deletions), in order. *)
Definition messaging (evs : list event) : list event :=
  List.filter is_messaging evs.

(** The call behind an event came back without raising. *)
Definition returned (ev : event) : Prop :=
  match ev with
  | Log _ _ => True
  | ReplyText _ r => ∃ m, r = Ok m
  | Delete _ r => r = Ok tt
  | GetFile _ r => ∃ f, r = Ok f
  | Post _ _ r => ∃ resp, r = Ok resp
  end.

Definition NOTICE : value := VStr "Processing with AI...".

(** ** ai.py *)

Module SplitBotRequest.
Record t := {
  message : string;
  group_id : string;
  sender : option string;
  image_url : option string
}.

Definition to_dict (self : t) : gmap string value :=
  let result : gmap string value :=
    <["sender" := opt_str (sender self)]>
      (<["group_id" := VStr (group_id self)]>
        (<["message" := VStr (message self)]> ∅)) in
  match image_url self with
  | Some url => <["image_url" := VStr url]> result
  | None => result
  end.
End SplitBotRequest.

Section bot.

(** [str(v)] for a value that is not a string, the interpreter's own
    rendering (of a number, [None], a list, a dict in insertion order). *)
Variable py_str : value → string.

(** [f"{v}"] *)
Definition fmt (v : value) : string :=
  match v with
  | VStr s => s
  | _ => py_str v
  end.

(** [d.get(key, default)]; anything but a dict has no [get]. *)
Definition py_get (data : value) (key : string) (dflt : value) : M value :=
  match data with
  | VDict d => ret (default dflt (d !! key))
  | _ => raise (AttributeError
           ("'" +:+ type_name data +:+ "' object has no attribute 'get'"))
  end.

(** The process environment, the chat platform and the backend. *)
Variable w : world.

(** Module-level [BOT_NAME = os.getenv("BOT_NAME")], read once at import;
    the import fails when it is unset or empty. *)
Variable BOT_NAME : string.

Definition process_message (request : SplitBotRequest.t) : M value :=
  match getenv w "SPLIT_BOT_URL" with
  | None | Some "" =>
      raise (ValueError "SPLIT_BOT_URL not found in environment variables")
  | Some SPLIT_BOT_URL =>
      let url := SPLIT_BOT_URL +:+ "/process_message" in
      let request_body := SplitBotRequest.to_dict request in
      log INFO ("Making POST request to " +:+ url) ;;
      log INFO ("Request body: " +:+ py_str (VDict request_body)) ;;
      (* httpx.AsyncClient(timeout=120.0): a timeout is an HTTPError of post *)
      response ← emit (λ h, post w h url request_body) (Post url request_body) ;
      log INFO ("Response status code: "
                +:+ pretty (Response.status_code response)) ;;
      response_data ← lift (Response.json response) ;
      log INFO ("Response body: " +:+ fmt response_data) ;;
      if negb (Response.status_code response =? 200)%Z then
        raise (ValueError ("Request failed with status code "
                           +:+ pretty (Response.status_code response)))
      else
        got ← py_get response_data "error" VNone ;
        let error := py_or got (VStr "") in
        if ne_str error "" then
          raise (ValueError ("Error in response: " +:+ fmt error))
        else
          py_get response_data "response" (VStr "")
  end.

(** Lines 51-61 as a function of the response and its decoded body: what
    [process_message] ends with once the body has been decoded and logged. *)
Definition validated (response : Response.t) (response_data : value)
    : result value :=
  if negb (Response.status_code response =? 200)%Z then
    Raise (ValueError ("Request failed with status code "
                       +:+ pretty (Response.status_code response)))
  else
    match response_data with
    | VDict d =>
        let error := py_or (default VNone (d !! "error")) (VStr "") in
        if ne_str error "" then
          Raise (ValueError ("Error in response: " +:+ fmt error))
        else Ok (default (VStr "") (d !! "response"))
    | _ => Raise (AttributeError
             ("'" +:+ type_name response_data
              +:+ "' object has no attribute 'get'"))
    end.

(** ** main.py *)

Definition send_reply (text : value) : M sent :=
  emit (λ h, reply_text w h text) (ReplyText text).

Definition delete_message (msg : sent) : M unit :=
  emit (λ h, delete w h msg) (Delete msg).

(** [from_user.username]; [None] has no attributes. *)
Definition username_of (from_user : option User.t) : M (option string) :=
  match from_user with
  | Some user => ret (User.username user)
  | None => raise (AttributeError
              "'NoneType' object has no attribute 'username'")
  end.

(** Lines 32-43: the file to fetch, if the message carries one. *)
Definition selected_file_id (message : Message.t) : option string :=
  match last (Message.photo message) with
  | Some photo => Some (PhotoSize.file_id photo)          (* photo[-1] *)
  | None => Document.file_id <$> Message.document message
  end.

Definition handle_image (update : Update.t) : M unit :=
  match Update.message update with
  | None => ret tt
  | Some message =>
      match selected_file_id message with
      | None => ret tt
      | Some file_id =>
          let group_id := pretty (Chat.id (Message.chat message)) in
          sender ← username_of (Message.from_user message) ;
          processing_msg ← send_reply NOTICE ;
          try_except
            (log INFO ("Fetching file path for - " +:+ file_id) ;;
             file ← emit (λ h, get_file w h file_id) (GetFile file_id) ;
             image_url ← match File.file_path file with
                         | None | Some "" =>
                             raise (ValueError
                               "File path is None - cannot construct image URL")
                         | Some file_path => ret file_path
                         end ;
             let request := {|
               SplitBotRequest.message := "";
               SplitBotRequest.group_id := group_id;
               SplitBotRequest.sender := sender;
               SplitBotRequest.image_url := Some image_url |} in
             ai_response ← process_message request ;
             delete_message processing_msg ;;
             send_reply ai_response ;;
             ret tt)
            (λ e,
             log ERROR ("Error processing image: " +:+ str e) ;;
             delete_message processing_msg ;;
             send_reply (VStr ("Error processing image: " +:+ str e)) ;;
             ret tt)
      end
  end.

Definition handle_message (update : Update.t) : M unit :=
  match Update.message update with
  | None => ret tt
  | Some message =>
      match Message.text message with
      | None | Some "" => ret tt
      | Some text =>
          if negb (substring_in ("@" +:+ BOT_NAME) text) then ret tt
          else
            let group_id := pretty (Chat.id (Message.chat message)) in
            sender ← username_of (Message.from_user message) ;
            processing_msg ← send_reply NOTICE ;
            try_except
              (let request := {|
                 SplitBotRequest.message := text;
                 SplitBotRequest.group_id := group_id;
                 SplitBotRequest.sender := sender;
                 SplitBotRequest.image_url := None |} in
               ai_response ← process_message request ;
               delete_message processing_msg ;;
               send_reply ai_response ;;
               ret tt)
              (λ e,
               log ERROR ("Error processing message with AI: " +:+ str e) ;;
               delete_message processing_msg ;;
               send_reply (VStr ("Error processing message: " +:+ str e)) ;;
               ret tt)
      end
  end.

End bot.

(** ** Exit paths

    Both handlers share one shape: read the author, send the notice, then
    a guarded region [try: ai_response = first; delete; reply
    except: log; delete; reply].  The relations below list the ways through
    it; [guarded_paths] shows that every run takes one of them. *)

Section paths.

Variable w : world.
Variables log_prefix reply_prefix : string.

(** The handler shape, with the part of the try block that computes
    [ai_response] left open. *)
Definition guarded (first : M value) (processing_msg : sent) : M unit :=
  try_except
    (ai_response ← first ;
     delete_message w processing_msg ;;
     send_reply w ai_response ;;
     mret tt)
    (λ e,
     log ERROR (log_prefix +:+ str e) ;;
     delete_message w processing_msg ;;
     send_reply w (VStr (reply_prefix +:+ str e)) ;;
     mret tt).

Definition with_notice (from_user : option User.t)
    (first : option string → M value) : M unit :=
  sender ← username_of from_user ;
  processing_msg ← send_reply w NOTICE ;
  guarded (first sender) processing_msg.

(** Where the try block raises: in [first], in the deletion, in the reply. *)
Inductive caught (pm : sent) : result value → list event → exn → Prop :=
| caught_first e :
    caught pm (Raise e) [] e
| caught_delete ai e :
    caught pm (Ok ai) [Delete pm (Raise e)] e
| caught_reply ai e :
    caught pm (Ok ai) [Delete pm (Ok tt); ReplyText ai (Raise e)] e.

(** The except block, for the exception [e] it caught. *)
Inductive recovery (pm : sent) (e : exn) : list event → result unit → Prop :=
| recovery_delete_raises e' :
    recovery pm e
      [Log ERROR (log_prefix +:+ str e); Delete pm (Raise e')] (Raise e')
| recovery_reply_raises e' :
    recovery pm e
      [Log ERROR (log_prefix +:+ str e); Delete pm (Ok tt);
       ReplyText (VStr (reply_prefix +:+ str e)) (Raise e')] (Raise e')
| recovery_replied id :
    recovery pm e
      [Log ERROR (log_prefix +:+ str e); Delete pm (Ok tt);
       ReplyText (VStr (reply_prefix +:+ str e)) (Ok id)] (Ok tt).

(** What follows [first], given how [first] ended. *)
Inductive exit_path (pm : sent) : result value → list event → result unit → Prop :=
| exit_replied ai id :
    exit_path pm (Ok ai) [Delete pm (Ok tt); ReplyText ai (Ok id)] (Ok tt)
| exit_caught r1 pre e tail r :
    caught pm r1 pre e → recovery pm e tail r →
    exit_path pm r1 (pre ++ tail) r.

(** A whole run from the point where the event has been accepted. *)
Inductive run_path (from_user : option User.t) (first : option string → M value)
    (h : list event) : list event → result unit → Prop :=
| run_no_author :
    from_user = None →
    run_path from_user first h []
      (Raise (AttributeError "'NoneType' object has no attribute 'username'"))
| run_notice_raises author e :
    from_user = Some author →
    reply_text w h NOTICE = Raise e →
    run_path from_user first h [ReplyText NOTICE (Raise e)] (Raise e)
| run_guarded author pm tail r :
    from_user = Some author →
    reply_text w h NOTICE = Ok pm →
    let h1 := h ++ [ReplyText NOTICE (Ok pm)] in
    let attempt := first (User.username author) in
    exit_path pm (outcome attempt h1) tail r →
    run_path from_user first h
      (ReplyText NOTICE (Ok pm) :: events attempt h1 ++ tail) r.

End paths.

(** How an exception [e'] can leave a handler: raised while reading the
    author, by the sending of the notice, or by the except block itself. *)
Definition escapes (log_prefix reply_prefix : string) (evs : list event)
    (e' : exn) : Prop :=
  (evs = []
   ∧ e' = AttributeError "'NoneType' object has no attribute 'username'")
  ∨ evs = [ReplyText NOTICE (Raise e')]
  ∨ ∃ before pm e tail,
      evs = before ++ tail
      ∧ recovery log_prefix reply_prefix pm e tail (Raise e').

(** The two instances of [first]: what each handler computes as
    [ai_response]. *)

Definition message_attempt (py_str : value → string) (w : world)
    (message : Message.t) (text : string) (sender : option string) : M value :=
  process_message py_str w {|
    SplitBotRequest.message := text;
    SplitBotRequest.group_id := pretty (Chat.id (Message.chat message));
    SplitBotRequest.sender := sender;
    SplitBotRequest.image_url := None |}.

Definition image_attempt (py_str : value → string) (w : world)
    (message : Message.t) (file_id : string) (sender : option string)
    : M value :=
  log INFO ("Fetching file path for - " +:+ file_id) ;;
  file ← emit (λ h, get_file w h file_id) (GetFile file_id) ;
  image_url ← match File.file_path file with
              | None | Some "" =>
                  raise (ValueError
                    "File path is None - cannot construct image URL")
              | Some file_path => ret file_path
              end ;
  process_message py_str w {|
    SplitBotRequest.message := "";
    SplitBotRequest.group_id := pretty (Chat.id (Message.chat message));
    SplitBotRequest.sender := sender;
    SplitBotRequest.image_url := Some image_url |}.

(** ** File resolution *)

(** The exception lines 58-62 raise for an answer of [get_file], if any:
    the call's own, or the handler's when the file has no path. *)
Definition resolution_failure (answer : result File.t) : option exn :=
  match answer with
  | Raise e => Some e
  | Ok file =>
      match File.file_path file with
      | None | Some "" =>
          Some (ValueError "File path is None - cannot construct image URL")
      | Some _ => None
      end
  end.

(** The platform lists the sizes of a photo from the smallest to the
    largest. *)
Definition ascending (sizes : list PhotoSize.t) : Prop :=
  ∀ i j small large, i ≤ j →
    sizes !! i = Some small → sizes !! j = Some large →
    (PhotoSize.pixels small ≤ PhotoSize.pixels large)%Z.

(** The file reference an image event comes with, as the platform delivers
    it: the last listed size of its photo or, when it has no photo sizes,
    its document. *)
Definition offers (message : Message.t) (file_id : string) : Prop :=
  (∃ photo, last (Message.photo message) = Some photo
            ∧ file_id = PhotoSize.file_id photo)
  ∨ (Message.photo message = []
     ∧ ∃ document, Message.document message = Some document
                   ∧ file_id = Document.file_id document).

(** ** The mention token *)

(** [text] contains the bot's mention: the literal ["@" + BOT_NAME]
    somewhere inside it, whatever comes before or after. *)
Definition mentions (BOT_NAME text : string) : Prop :=
  ∃ before after, text = before +:+ ("@" +:+ BOT_NAME) +:+ after.

(** ** main.py: configuration and start-up

    The module body and [main] talk to a [host]: the process environment
    (after [load_dotenv]) and the two blocking entry points of the
    library, which return when the bot stops, or raise. *)

(** [s.lower()], on the letters A-Z.  Python also lowers letters outside
    ASCII; none of them becomes a letter of the four words [ENV] is compared
    with, so the two flags below are the same. *)
Definition lower_char (c : Ascii.ascii) : Ascii.ascii :=
  let n := Ascii.nat_of_ascii c in
  if (65 <=? n)%nat && (n <=? 90)%nat then Ascii.ascii_of_nat (n + 32) else c.

Fixpoint lower (s : string) : string :=
  match s with
  | EmptyString => EmptyString
  | String c rest => String (lower_char c) (lower rest)
  end.

(** The filters of the library that [main.py] combines, as written. *)
Inductive filter :=
| PHOTO
| Document_IMAGE
| TEXT
| COMMAND
| filter_or (f g : filter)      (* f | g *)
| filter_and (f g : filter)     (* f & g *)
| filter_not (f : filter).      (* ~f *)

(** The coroutine a [MessageHandler] calls. *)
Inductive callback := to_handle_image | to_handle_message.

Module Application.
Record t := { token : string; handlers : list (filter * callback) }.
Definition add_handler (application : t) (handler : filter * callback) : t :=
  {| token := token application;
     handlers := handlers application ++ [handler] |}.
End Application.

(** [logging.DEBUG] and [logging.INFO] as thresholds of [basicConfig]. *)
Inductive threshold := LEVEL_DEBUG | LEVEL_INFO.

(** [Update.ALL_TYPES] *)
Inductive update_types := ALL_TYPES.

Inductive start_event :=
| Configured (level : threshold)                    (* logging.basicConfig *)
| Logged (lvl : level) (line : string)
| Printed (line : string)
| RunWebhook (application : Application.t) (listen : string) (port : Z)
    (url_path webhook_url : string) (allowed_updates : update_types)
    (r : result unit)
| RunPolling (application : Application.t) (allowed_updates : update_types)
    (r : result unit).

Record host := {
  environ : string → option string;
  run_webhook :
    Application.t → string → Z → string → string → update_types → result unit;
  run_polling : Application.t → update_types → result unit
}.

(** Start-up computations: the events so far and the outcome. *)
Definition Boot (A : Type) : Type := list start_event * result A.

Definition boot_bind {A B} (m : Boot A) (f : A → Boot B) : Boot B :=
  match m with
  | (evs, Ok a) => let '(evs', r) := f a in (evs ++ evs', r)
  | (evs, Raise e) => (evs, Raise e)
  end.

#[global] Instance Boot_ret : MRet Boot := λ A a, ([], Ok a).
#[global] Instance Boot_bind : MBind Boot := λ A B f m, boot_bind m f.

Definition tell (ev : start_event) : Boot unit := ([ev], Ok tt).
Definition fail {A} (e : exn) : Boot A := ([], Raise e).

(** [isinstance(e, ValueError)]: [json.JSONDecodeError] derives from
    [ValueError]. *)
Definition is_ValueError (e : exn) : bool :=
  match e with
  | ValueError _ | JSONDecodeError _ => true
  | AttributeError _ | HTTPError _ | TelegramError _ => false
  end.

(** [try: m except ValueError as e: handler e] *)
Definition except_ValueError {A} (m : Boot A) (handler : exn → Boot A)
    : Boot A :=
  match m with
  | (evs, Ok a) => (evs, Ok a)
  | (evs, Raise e) =>
      if is_ValueError e
      then let '(evs', r) := handler e in (evs ++ evs', r)
      else (evs, Raise e)
  end.

Definition events_of {A} (m : Boot A) : list start_event := m.1.
Definition outcome_of {A} (m : Boot A) : result A := m.2.

(** The transports a start-up began, read off its events. *)
Definition is_transport (ev : start_event) : bool :=
  match ev with
  | RunWebhook _ _ _ _ _ _ _ | RunPolling _ _ _ => true
  | _ => false
  end.

Definition transports (evs : list start_event) : list start_event :=
  List.filter is_transport evs.

(** How a transport ended: it returned when the bot was stopped, or raised. *)
Definition transport_result (ev : start_event) : option (result unit) :=
  match ev with
  | RunWebhook _ _ _ _ _ _ r | RunPolling _ _ r => Some r
  | _ => None
  end.

Section startup.

(** [int(s)] on a string: the integer, or [None] where it raises
    [ValueError]. *)
Variable py_int : string → option Z.

Variable host : host.

(** Lines 12-14 *)
Definition ENV : string := lower (default "development" (environ host "ENV")).
Definition IS_DEV : bool := bool_decide (ENV ∈ ["dev"; "development"]).
Definition IS_PROD : bool := bool_decide (ENV ∈ ["prod"; "production"]).

(** Lines 16-25: the rest of the module body, giving [BOT_NAME]. *)
Definition module_body : Boot string :=
  match environ host "BOT_NAME" with
  | None | Some "" =>
      fail (ValueError "BOT_NAME not found in environment variables")
  | Some BOT_NAME =>
      tell (Configured (if IS_DEV then LEVEL_DEBUG else LEVEL_INFO)) ;;
      mret BOT_NAME
  end.

Definition setup_application : Boot Application.t :=
  match environ host "TELEGRAM_BOT_TOKEN" with
  | None | Some "" =>
      tell (Logged ERROR
              "No TELEGRAM_BOT_TOKEN found in environment variables.") ;;
      tell (Printed
              "Error: TELEGRAM_BOT_TOKEN not found. Please set it in .env file.") ;;
      fail (ValueError "TELEGRAM_BOT_TOKEN not found in environment variables")
  | Some token =>
      (* Application.builder().token(token).build() *)
      let application :=
        {| Application.token := token; Application.handlers := [] |} in
      let application :=
        Application.add_handler application
          (filter_or PHOTO Document_IMAGE, to_handle_image) in
      let application :=
        Application.add_handler application
          (filter_and TEXT (filter_not COMMAND), to_handle_message) in
      mret application
  end.

Definition setup_prod_webhook (application : Application.t) : Boot unit :=
  let webhook_base_url := environ host "BOT_WEBHOOK" in
  let port := environ host "PORT" in
  match webhook_base_url with
  | None | Some "" =>
      tell (Logged ERROR
        "BOT_WEBHOOK not found in environment variables for production mode.") ;;
      fail (ValueError
        "BOT_WEBHOOK not found in environment variables for production mode")
  | Some webhook_base_url =>
      match port with
      | None | Some "" =>
          tell (Logged ERROR
            "PORT not found in environment variables for production mode.") ;;
          fail (ValueError
            "PORT not found in environment variables for production mode")
      | Some port =>
          let webhook := webhook_base_url +:+ "/webhook" in
          match py_int port with
          | None =>
              tell (Logged ERROR ("Invalid PORT value: " +:+ port
                                  +:+ ". Must be an integer.")) ;;
              fail (ValueError ("Invalid PORT value: " +:+ port
                                +:+ ". Must be an integer"))
          | Some port =>
              tell (Logged INFO
                ("Starting bot in production mode with webhook: " +:+ webhook
                 +:+ " on port " +:+ pretty port)) ;;
              let r := run_webhook host application "0.0.0.0" port "/webhook"
                         webhook ALL_TYPES in
              (([RunWebhook application "0.0.0.0" port "/webhook" webhook
                   ALL_TYPES r], r) : Boot unit)
          end
      end
  end.

Definition setup_non_prod_polling (application : Application.t) : Boot unit :=
  tell (Logged INFO "Starting bot in development mode with polling") ;;
  let r := run_polling host application ALL_TYPES in
  (([RunPolling application ALL_TYPES r], r) : Boot unit).

Definition main : Boot unit :=
  except_ValueError
    (application ← setup_application ;
     if IS_PROD then setup_prod_webhook application
     else setup_non_prod_polling application)
    (λ e, tell (Logged ERROR ("Configuration error: " +:+ str e))).

(** [python main.py]: the module body, then [main()]. *)
Definition program : Boot unit := module_body ;; main.

(** The complete webhook configuration, if there is one: the base URL and
    the port, both set, not empty, and the port an integer. *)
Definition webhook_configuration : option (string * Z) :=
  match environ host "BOT_WEBHOOK", environ host "PORT" with
  | Some (String c base), Some (String d port) =>
      n ← py_int (String d port) ; Some (String c base, n)
  | _, _ => None
  end.

End startup.

(** The application [setup_application] builds from a token: the image
    handler first, then the text handler. *)
Definition built (token : string) : Application.t := {|
  Application.token := token;
  Application.handlers :=
    [(filter_or PHOTO Document_IMAGE, to_handle_image);
     (filter_and TEXT (filter_not COMMAND), to_handle_message)]
|}.

(** The files a run asked the platform for, in order. *)
Definition fetched (evs : list event) : list string :=
  omap (λ ev, match ev with GetFile file_id _ => Some file_id | _ => None end)
    evs.

(** ** Concrete hosts, for the examples at the end *)

Fixpoint digits_value (s : string) (acc : Z) : option Z :=
  match s with
  | EmptyString => Some acc
  | String c rest =>
      let n := Ascii.nat_of_ascii c in
      if (48 <=? n)%nat && (n <=? 57)%nat
      then digits_value rest (acc * 10 + Z.of_nat (n - 48))
      else None
  end.

(** [int] on a plain run of decimal digits, for the hosts below; [int]
    itself also takes a sign, blanks around the number and underscores. *)
Definition int_of_digits (s : string) : option Z :=
  match s with
  | EmptyString => None
  | _ => digits_value s 0
  end.

(** A host with the given environment, on which both transports run until
    the bot is stopped and then return. *)
Definition running (vars : list (string * string)) : host := {|
  environ := λ key, (list_to_map vars : gmap string string) !! key;
  run_webhook := λ _ _ _ _ _ _, Ok tt;
  run_polling := λ _ _, Ok tt
|}.

Definition production : host :=
  running [("ENV", "Production"); ("BOT_NAME", "SplitBot");
           ("TELEGRAM_BOT_TOKEN", "123:abc");
           ("BOT_WEBHOOK", "https://bot.example"); ("PORT", "8443")].

(** The port is not a number. *)
Definition misconfigured : host :=
  running [("ENV", "prod"); ("BOT_NAME", "SplitBot");
           ("TELEGRAM_BOT_TOKEN", "123:abc");
           ("BOT_WEBHOOK", "https://bot.example"); ("PORT", "http")].

(** No [ENV], no token. *)
Definition bare : host := running [("BOT_NAME", "SplitBot")].

(** A mode that is neither development nor production. *)
Definition staging : host :=
  running [("ENV", "staging"); ("BOT_NAME", "SplitBot");
           ("TELEGRAM_BOT_TOKEN", "123:abc")].

(** Another instance of the bot is polling with the same token: the
    library gives up with an error of its own. *)
Definition contended : host := {|
  environ := environ staging;
  run_webhook := λ _ _ _ _ _ _, Ok tt;
  run_polling := λ _ _,
    Raise (TelegramError "Conflict: terminated by other getUpdates request")
|}.

(** ** Concrete worlds and events, for the examples at the end *)

(** [str] on scalars, for the worlds below; the ellipsis stands for the
    rendering of a float, a list or a dict, which only reaches log lines. *)
Definition str_scalar (v : value) : string :=
  match v with
  | VNone => "None"
  | VBool true => "True"
  | VBool false => "False"
  | VInt n => pretty n
  | VStr s => s
  | VFloat _ | VList _ | VDict _ => "..."
  end.

Definition environment (key : string) : option string :=
  if String.eqb key "SPLIT_BOT_URL" then Some "https://ai.example" else None.

(** The backend answers [answer]; every platform call goes through, and a
    sent message gets the length of the history as its id. *)
Definition served (answer : result Response.t) : world := {|
  getenv := environment;
  reply_text := λ h _, Ok (Z.of_nat (length h));
  delete := λ _ _, Ok tt;
  get_file := λ _ file_id,
    Ok {| File.file_path := Some ("https://files.example/" +:+ file_id) |};
  post := λ _ _ _, answer
|}.

Definition owed : Response.t := {|
  Response.status_code := 200;
  Response.json :=
    Ok (VDict (<["response" := VStr "You owe $12"]> (<["error" := VNone]> ∅)))
|}.

(** A proxy's error page: not JSON. *)
Definition bad_gateway : Response.t := {|
  Response.status_code := 502;
  Response.json := Raise (JSONDecodeError "Expecting value: line 1 column 1 (char 0)")
|}.

(** Status 200 and the body [{}]. *)
Definition empty_answer : Response.t := {|
  Response.status_code := 200;
  Response.json := Ok (VDict ∅)
|}.

Definition already_deleted (h : list event) (msg : sent) : bool :=
  existsb (λ ev, match ev with
                 | Delete msg' (Ok _) => (msg' =? msg)%Z
                 | _ => false
                 end) h.

(** The platform refuses an empty text, and refuses to delete a message
    twice; the backend answers [answer]. *)
Definition strict (answer : result Response.t) : world := {|
  getenv := environment;
  reply_text := λ h text,
    if truthy text then Ok (Z.of_nat (length h))
    else Raise (TelegramError "Message text is empty");
  delete := λ h msg,
    if already_deleted h msg
    then Raise (TelegramError "Message to delete not found")
    else Ok tt;
  get_file := get_file (served answer);
  post := λ _ _ _, answer
|}.

(** The bot has been removed from the chat: it cannot send anything. *)
Definition kicked : world := {|
  getenv := environment;
  reply_text := λ _ _,
    Raise (TelegramError "Forbidden: bot was kicked from the group chat");
  delete := λ _ _, Ok tt;
  get_file := get_file (served (Ok owed));
  post := λ _ _ _, Ok owed
|}.

(** The platform has no path for the file. *)
Definition unresolvable : world := {|
  getenv := environment;
  reply_text := reply_text (served (Ok owed));
  delete := λ _ _, Ok tt;
  get_file := λ _ _, Ok {| File.file_path := None |};
  post := λ _ _ _, Ok owed
|}.

(** No endpoint in the environment. *)
Definition unconfigured : world := {|
  getenv := λ _, None;
  reply_text := reply_text (served (Ok owed));
  delete := λ _ _, Ok tt;
  get_file := get_file (served (Ok owed));
  post := λ _ _ _, Ok owed
|}.

(** Status 200 and the body [[]]. *)
Definition listed : Response.t := {|
  Response.status_code := 200;
  Response.json := Ok (VList [])
|}.

(** Status 500 and an explanation nobody asked for. *)
Definition refused : Response.t := {|
  Response.status_code := 500;
  Response.json := Response.json owed
|}.

Definition texted (text : string) (username : option string) : Update.t := {|
  Update.message := Some {|
    Message.text := Some text;
    Message.photo := [];
    Message.document := None;
    Message.chat := {| Chat.id := -1001 |};
    Message.from_user := Some {| User.username := username |}
  |}
|}.

Definition question : Update.t :=
  texted "@SplitBot how much do I owe?" (Some "alice").

Definition chatter : Update.t := texted "how much do I owe?" (Some "alice").

(** The author has no username. *)
Definition unnamed_question : Update.t :=
  texted "@SplitBot how much do I owe?" None.

Definition receipt : Update.t := {|
  Update.message := Some {|
    Message.text := None;
    Message.photo := [
      {| PhotoSize.file_id := "thumb"; PhotoSize.width := 90;
         PhotoSize.height := 67 |};
      {| PhotoSize.file_id := "full"; PhotoSize.width := 1280;
         PhotoSize.height := 960 |} ];
    Message.document := None;
    Message.chat := {| Chat.id := -1001 |};
    Message.from_user := Some {| User.username := Some "alice" |}
  |}
|}.

(** The platform has no path for the file, and the notice cannot be
    deleted. *)
Definition stuck : world := {|
  getenv := environment;
  reply_text := reply_text (served (Ok owed));
  delete := λ _ _, Raise (TelegramError "Message can't be deleted");
  get_file := get_file unresolvable;
  post := λ _ _ _, Ok owed
|}.

(** A channel post: the message has no author. *)
Definition anonymous_question : Update.t := {|
  Update.message := Some {|
    Message.text := Some "@SplitBot how much do I owe?";
    Message.photo := [];
    Message.document := None;
    Message.chat := {| Chat.id := -1001 |};
    Message.from_user := None
  |}
|}.

(** The sizes of [receipt], the largest listed first. *)
Definition reordered : Update.t := {|
  Update.message := Some {|
    Message.text := None;
    Message.photo := [
      {| PhotoSize.file_id := "full"; PhotoSize.width := 1280;
         PhotoSize.height := 960 |};
      {| PhotoSize.file_id := "thumb"; PhotoSize.width := 90;
         PhotoSize.height := 67 |} ];
    Message.document := None;
    Message.chat := {| Chat.id := -1001 |};
    Message.from_user := Some {| User.username := Some "alice" |}
  |}
|}.

(** An image sent as a file. *)
Definition scan : Update.t := {|
  Update.message := Some {|
    Message.text := None;
    Message.photo := [];
    Message.document := Some {| Document.file_id := "scan.png" |};
    Message.chat := {| Chat.id := -1001 |};
    Message.from_user := Some {| User.username := Some "alice" |}
  |}
|}.

Definition asked : SplitBotRequest.t := {|
  SplitBotRequest.message := "@SplitBot how much do I owe?";
  SplitBotRequest.group_id := "-1001";
  SplitBotRequest.sender := Some "alice";
  SplitBotRequest.image_url := None
|}.

(** * Properties *)

(** An event that stands in an explicit list. *)
Ltac in_list :=
  repeat first [apply list_elem_of_here | apply list_elem_of_further].

(** Membership of an event in an explicit list: try each position. *)
Ltac only_post H :=
  repeat (apply elem_of_cons in H as [H|H]; simplify_eq);
  try (by apply elem_of_nil in H).

Section properties.

Variable py_str : value → string.
Variable w : world.
Variable BOT_NAME : string.

Abbreviation process_message := (process_message py_str w).
Abbreviation handle_message := (handle_message py_str w BOT_NAME).
Abbreviation handle_image := (handle_image py_str w).
Abbreviation validated := (validated py_str).

(** ** Running computations *)

Lemma run_bind {A B} (m : M A) (f : A → M B) h :
  (m ≫= f) h =
  match m h with
  | (evs, Ok a) => let '(evs', r) := f a (h ++ evs) in (evs ++ evs', r)
  | (evs, Raise e) => (evs, Raise e)
  end.
Proof. reflexivity. Qed.

Lemma run_try_except {A} (m : M A) (handler : exn → M A) h :
  try_except m handler h =
  match m h with
  | (evs, Ok a) => (evs, Ok a)
  | (evs, Raise e) => let '(evs', r) := handler e (h ++ evs) in (evs ++ evs', r)
  end.
Proof. reflexivity. Qed.

Lemma bind_assoc {A B C} (m : M A) (f : A → M B) (g : B → M C) h :
  ((m ≫= f) ≫= g) h = (m ≫= (λ a, f a ≫= g)) h.
Proof.
  rewrite !run_bind. destruct (m h) as [evs [a|e]]; [|done].
  rewrite run_bind. destruct (f a (h ++ evs)) as [evs' [b|e]]; [|done].
  rewrite <- (assoc_L (++)). destruct (g b _) as [evs'' r].
  by rewrite (assoc_L (++)).
Qed.

Lemma bind_ext {A B} (m : M A) (f g : A → M B) h :
  (∀ a h', f a h' = g a h') → (m ≫= f) h = (m ≫= g) h.
Proof.
  intros Hfg. rewrite !run_bind. destruct (m h) as [evs [a|e]]; [|done].
  by rewrite Hfg.
Qed.

Lemma try_except_ext {A} (m m' : M A) handler h :
  m h = m' h → try_except m handler h = try_except m' handler h.
Proof. intros Hm. by rewrite !run_try_except, Hm. Qed.

(** ** Every run of the guarded region takes one of the listed paths *)

Lemma recovery_paths log_prefix reply_prefix pm e h :
  ∃ tail r,
    (log ERROR (log_prefix +:+ str e) ;;
     delete_message w pm ;;
     send_reply w (VStr (reply_prefix +:+ str e)) ;;
     mret tt) h = (tail, r)
    ∧ recovery log_prefix reply_prefix pm e tail r.
Proof.
  cbv [mbind M_bind bind delete_message send_reply emit log mret M_ret ret].
  cbn [app].
  destruct (delete w _ pm) as [[]|e'].
  - destruct (reply_text w _ _) as [id|e'].
    + eexists _, _. split; [done|]. constructor.
    + eexists _, _. split; [done|]. constructor.
  - eexists _, _. split; [done|]. constructor.
Qed.

Lemma guarded_paths log_prefix reply_prefix (first : M value) pm h :
  ∃ tail r,
    guarded w log_prefix reply_prefix first pm h = (events first h ++ tail, r)
    ∧ exit_path log_prefix reply_prefix pm (outcome first h) tail r.
Proof.
  unfold guarded, events, outcome.
  rewrite run_try_except, run_bind.
  destruct (first h) as [evs [ai|e]]; cbn [fst snd].
  - rewrite run_bind. unfold delete_message at 1, emit at 1.
    destruct (delete w (h ++ evs) pm) as [[]|e].
    + rewrite run_bind. unfold send_reply at 1, emit at 1.
      destruct (reply_text w _ ai) as [id|e].
      * cbn. eexists _, _. split; [done|]. constructor.
      * destruct (recovery_paths log_prefix reply_prefix pm e
          (h ++ evs ++ [Delete pm (Ok ())] ++ [ReplyText ai (Raise e)]))
          as (tail & r & -> & Hrec).
        exists ([Delete pm (Ok ()); ReplyText ai (Raise e)] ++ tail), r.
        split; [by rewrite <- !(assoc_L (++))|].
        by apply exit_caught with e; [constructor|].
    + destruct (recovery_paths log_prefix reply_prefix pm e
        (h ++ evs ++ [Delete pm (Raise e)])) as (tail & r & -> & Hrec).
      exists ([Delete pm (Raise e)] ++ tail), r.
      split; [by rewrite <- !(assoc_L (++))|].
      by apply exit_caught with e; [constructor|].
  - destruct (recovery_paths log_prefix reply_prefix pm e (h ++ evs))
      as (tail & r & -> & Hrec).
    exists ([] ++ tail), r. split; [done|].
    by apply exit_caught with e; [constructor|].
Qed.

Lemma with_notice_run log_prefix reply_prefix author first h :
  with_notice w log_prefix reply_prefix (Some author) first h =
  match reply_text w h NOTICE with
  | Ok pm =>
      let '(evs, r) :=
        guarded w log_prefix reply_prefix (first (User.username author)) pm
          (h ++ [ReplyText NOTICE (Ok pm)]) in
      (ReplyText NOTICE (Ok pm) :: evs, r)
  | Raise e => ([ReplyText NOTICE (Raise e)], Raise e)
  end.
Proof.
  unfold with_notice. rewrite run_bind. cbn [username_of mret M_ret ret app].
  rewrite run_bind. unfold send_reply at 1, emit at 1.
  rewrite (right_id_L [] (++)). cbn zeta.
  destruct (reply_text w h NOTICE) as [pm|e]; [|done].
  by destruct (guarded _ _ _ _ _ _).
Qed.

Lemma with_notice_paths log_prefix reply_prefix from_user first h :
  run_path w log_prefix reply_prefix from_user first h
    (events (with_notice w log_prefix reply_prefix from_user first) h)
    (outcome (with_notice w log_prefix reply_prefix from_user first) h).
Proof.
  unfold events, outcome.
  destruct from_user as [author|]; [|by constructor].
  rewrite with_notice_run.
  destruct (reply_text w h NOTICE) as [pm|e] eqn:Hnotice.
  - destruct (guarded_paths log_prefix reply_prefix
                (first (User.username author)) pm
                (h ++ [ReplyText NOTICE (Ok pm)])) as (tail & r & -> & Hexit).
    cbn [fst snd]. by eapply run_guarded.
  - cbn [fst snd]. by eapply run_notice_raises.
Qed.

(** ** The substring test *)

Lemma append_cons c s t : String c s +:+ t = String c (s +:+ t).
Proof. reflexivity. Qed.

Lemma append_nil t : "" +:+ t = t.
Proof. reflexivity. Qed.

Lemma prefix_app needle hay :
  String.prefix needle hay = true ↔ ∃ after, hay = needle +:+ after.
Proof.
  revert hay. induction needle as [|c needle IH]; intros [|c' hay]; simpl.
  - split; [by exists ""|done].
  - split; [by exists (String c' hay)|done].
  - split; [done|by intros [? ?]].
  - destruct (Ascii.ascii_dec c c') as [->|Hne].
    + rewrite IH. split; intros [after Hafter]; exists after;
        rewrite append_cons in *; congruence.
    + split; [done|]. intros [after Hafter].
      rewrite append_cons in Hafter. congruence.
Qed.

Lemma substring_in_spec needle hay :
  substring_in needle hay = true ↔
  ∃ before after, hay = before +:+ needle +:+ after.
Proof.
  induction hay as [|c hay IH]; cbn [substring_in].
  - destruct (String.prefix needle "") eqn:Hp.
    + apply prefix_app in Hp as [after Hafter].
      split; [|done]. intros _. by exists "", after.
    + split; [done|]. intros (before & after & Heq).
      destruct before; [|done]. rewrite append_nil in Heq.
      assert (String.prefix needle "" = true) as Hp'
        by (apply prefix_app; eauto).
      congruence.
  - destruct (String.prefix needle (String c hay)) eqn:Hp.
    + apply prefix_app in Hp as [after Hafter].
      split; [|done]. intros _. by exists "", after.
    + rewrite IH. split.
      * intros (before & after & ->). by exists (String c before), after.
      * intros (before & after & Heq). destruct before as [|c' before].
        -- rewrite append_nil in Heq.
           assert (String.prefix needle (String c hay) = true) as Hp'
             by (apply prefix_app; eauto).
           congruence.
        -- rewrite append_cons in Heq. injection Heq as -> ->.
           by exists before, after.
Qed.

Lemma mentions_spec text :
  substring_in ("@" +:+ BOT_NAME) text = true ↔ mentions BOT_NAME text.
Proof. apply substring_in_spec. Qed.

(** ** The handlers as instances of the shape *)

Lemma handle_message_ignored update h :
  (∀ message text, Update.message update = Some message →
     Message.text message = Some text →
     substring_in ("@" +:+ BOT_NAME) text = false) →
  handle_message update h = ([], Ok tt).
Proof.
  intros Hno. unfold handle_message.
  destruct (Update.message update) as [message|]; [|done].
  destruct (Message.text message) as [[|c text]|] eqn:Htext; [done| |done].
  by rewrite (Hno message (String c text)).
Qed.

Lemma handle_message_accepted update message text h :
  Update.message update = Some message →
  Message.text message = Some text →
  substring_in ("@" +:+ BOT_NAME) text = true →
  handle_message update h =
  with_notice w "Error processing message with AI: " "Error processing message: "
    (Message.from_user message) (message_attempt py_str w message text) h.
Proof.
  intros Hmessage Htext Hin. unfold handle_message.
  rewrite Hmessage, Htext.
  destruct text as [|c text]; [done|]. by rewrite Hin.
Qed.

Lemma handle_image_ignored update h :
  (∀ message, Update.message update = Some message →
     selected_file_id message = None) →
  handle_image update h = ([], Ok tt).
Proof.
  intros Hno. unfold handle_image.
  destruct (Update.message update) as [message|]; [|done].
  by rewrite (Hno message).
Qed.

Lemma handle_image_accepted update message file_id h :
  Update.message update = Some message →
  selected_file_id message = Some file_id →
  handle_image update h =
  with_notice w "Error processing image: " "Error processing image: "
    (Message.from_user message) (image_attempt py_str w message file_id) h.
Proof.
  intros Hmessage Hsel. unfold handle_image.
  rewrite Hmessage, Hsel. unfold with_notice.
  apply bind_ext; intros sender h1.
  apply bind_ext; intros pm h2.
  unfold guarded. apply try_except_ext.
  unfold image_attempt.
  rewrite bind_assoc. apply bind_ext; intros [] h3.
  rewrite bind_assoc. apply bind_ext; intros file h4.
  rewrite bind_assoc. by apply bind_ext.
Qed.

Lemma handle_message_paths update message text h :
  Update.message update = Some message →
  Message.text message = Some text →
  mentions BOT_NAME text →
  run_path w "Error processing message with AI: " "Error processing message: "
    (Message.from_user message) (message_attempt py_str w message text) h
    (events (handle_message update) h) (outcome (handle_message update) h).
Proof.
  intros Hmessage Htext Hin%mentions_spec. unfold events, outcome.
  rewrite (handle_message_accepted _ _ _ _ Hmessage Htext Hin).
  apply with_notice_paths.
Qed.

Lemma handle_image_paths update message file_id h :
  Update.message update = Some message →
  selected_file_id message = Some file_id →
  run_path w "Error processing image: " "Error processing image: "
    (Message.from_user message) (image_attempt py_str w message file_id) h
    (events (handle_image update) h) (outcome (handle_image update) h).
Proof.
  intros Hmessage Hsel. unfold events, outcome.
  rewrite (handle_image_accepted _ _ _ _ Hmessage Hsel).
  apply with_notice_paths.
Qed.

(** ** Reading events off a path *)

Lemma run_path_guarded lp rp from_user first h evs r author pm :
  run_path w lp rp from_user first h evs r →
  from_user = Some author →
  reply_text w h NOTICE = Ok pm →
  ∃ tail,
    evs = ReplyText NOTICE (Ok pm)
          :: events (first (User.username author))
               (h ++ [ReplyText NOTICE (Ok pm)]) ++ tail
    ∧ exit_path lp rp pm
        (outcome (first (User.username author))
           (h ++ [ReplyText NOTICE (Ok pm)])) tail r.
Proof.
  destruct 1 as [|? ? ? ?|author' pm' tail r ? ? h1 attempt Hexit];
    intros; simplify_eq; [congruence|].
  assert (pm' = pm) as -> by congruence. by exists tail.
Qed.

Lemma outbound_calls_app evs evs' :
  outbound_calls (evs ++ evs') = outbound_calls evs ++ outbound_calls evs'.
Proof. apply omap_app. Qed.

Lemma messaging_app evs evs' :
  messaging (evs ++ evs') = messaging evs ++ messaging evs'.
Proof. apply List.filter_app. Qed.

Lemma elem_of_outbound_calls url body evs :
  (url, body) ∈ outbound_calls evs ↔ ∃ r, Post url body r ∈ evs.
Proof.
  unfold outbound_calls. rewrite list_elem_of_omap. split.
  - intros ([] & Hin & Heq); simplify_eq. eauto.
  - intros [r Hin]. by exists (Post url body r).
Qed.

Section exits.
Context {log_prefix reply_prefix : string} {pm : sent}.

Lemma recovery_calls e tail r :
  recovery log_prefix reply_prefix pm e tail r → outbound_calls tail = [].
Proof. by destruct 1. Qed.

Lemma exit_path_calls r1 tail r :
  exit_path log_prefix reply_prefix pm r1 tail r → outbound_calls tail = [].
Proof.
  destruct 1 as [|r1 pre e tail r Hcaught Hrec]; [done|].
  rewrite outbound_calls_app, (recovery_calls _ _ _ Hrec).
  by destruct Hcaught.
Qed.

End exits.

(** ** The outbound client, path by path *)

Lemma process_message_run request h :
  process_message request h =
  match getenv w "SPLIT_BOT_URL" with
  | None | Some "" =>
      ([], Raise (ValueError "SPLIT_BOT_URL not found in environment variables"))
  | Some base =>
      let url := base +:+ "/process_message" in
      let body := SplitBotRequest.to_dict request in
      let pre := [Log INFO ("Making POST request to " +:+ url);
                  Log INFO ("Request body: " +:+ py_str (VDict body))] in
      let r := post w (h ++ pre) url body in
      match r with
      | Raise e => (pre ++ [Post url body r], Raise e)
      | Ok response =>
          let evs := pre ++ [Post url body r;
                             Log INFO ("Response status code: "
                               +:+ pretty (Response.status_code response))] in
          match Response.json response with
          | Raise e => (evs, Raise e)
          | Ok data =>
              (evs ++ [Log INFO ("Response body: " +:+ fmt py_str data)],
               validated response data)
          end
      end
  end.
Proof.
  unfold process_message.
  destruct (getenv w "SPLIT_BOT_URL") as [[|c base]|]; [done| |done].
  cbv [mbind M_bind bind log emit lift]. cbn [app].
  rewrite <- !(assoc_L (++) h). cbn [app].
  destruct (post w _ _ _) as [response|e]; [|done].
  destruct (Response.json response) as [data|e]; [|done].
  unfold validated.
  destruct (negb _); [done|].
  destruct data; try done.
  cbv [py_get ret]. cbn [app].
  destruct (ne_str _ _); done.
Qed.

(** The endpoint the client posts to, when one is configured. *)
Lemma process_message_calls request h :
  outbound_calls (events (process_message request) h) =
  match getenv w "SPLIT_BOT_URL" with
  | None | Some "" => []
  | Some base =>
      [(base +:+ "/process_message", SplitBotRequest.to_dict request)]
  end.
Proof.
  unfold events. rewrite process_message_run.
  destruct (getenv w "SPLIT_BOT_URL") as [[|c base]|]; [done| |done].
  cbn zeta. destruct (post w _ _ _) as [response|e]; [|done].
  by destruct (Response.json response).
Qed.

Lemma process_message_quiet request h :
  messaging (events (process_message request) h) = [].
Proof.
  unfold events. rewrite process_message_run.
  destruct (getenv w "SPLIT_BOT_URL") as [[|c base]|]; [done| |done].
  cbn zeta. destruct (post w _ _ _) as [response|e]; [|done].
  by destruct (Response.json response).
Qed.

(** A POST that returned fixes how the call ends: by the decoder's
    exception, or by the validation of the decoded body. *)
Lemma process_message_posted request h url body response :
  Post url body (Ok response) ∈ events (process_message request) h →
  outcome (process_message request) h =
  match Response.json response with
  | Raise e => Raise e
  | Ok data => validated response data
  end.
Proof.
  unfold events, outcome. rewrite process_message_run.
  destruct (getenv w "SPLIT_BOT_URL") as [[|c base]|];
    [by intros ?%elem_of_nil| |by intros ?%elem_of_nil].
  cbn zeta. destruct (post w _ _ _) as [response'|e]; cbn [fst snd app].
  - destruct (Response.json response') as [data|e] eqn:Hjson;
      cbn [fst snd app]; intros Hin; only_post Hin; by rewrite Hjson.
  - intros Hin. only_post Hin.
Qed.

Lemma process_message_no_get_file request h file_id answer :
  GetFile file_id answer ∉ events (process_message request) h.
Proof.
  unfold events. rewrite process_message_run. intros Hin.
  destruct (getenv w "SPLIT_BOT_URL") as [[|c base]|]; [only_post Hin| |only_post Hin].
  cbn zeta in Hin. destruct (post w _ _ _) as [response|e]; [|only_post Hin].
  destruct (Response.json response); only_post Hin.
Qed.

(** ** File resolution, path by path *)

Lemma image_attempt_run message file_id sender h :
  image_attempt py_str w message file_id sender h =
  let fetching := Log INFO ("Fetching file path for - " +:+ file_id) in
  let answer := get_file w (h ++ [fetching]) file_id in
  match resolution_failure answer, answer with
  | Some e, _ | None, Raise e => ([fetching; GetFile file_id answer], Raise e)
  | None, Ok file =>
      let request := {|
        SplitBotRequest.message := "";
        SplitBotRequest.group_id := pretty (Chat.id (Message.chat message));
        SplitBotRequest.sender := sender;
        SplitBotRequest.image_url := File.file_path file |} in
      let '(evs, r) :=
        process_message request (h ++ [fetching; GetFile file_id answer]) in
      (fetching :: GetFile file_id answer :: evs, r)
  end.
Proof.
  unfold image_attempt.
  rewrite run_bind. cbn [log app]. rewrite run_bind.
  unfold emit at 1. cbn zeta.
  destruct (get_file w _ file_id) as [file|e]; [|done].
  cbn [resolution_failure app]. rewrite run_bind.
  rewrite <- !(assoc_L (++) h). cbn [app].
  destruct (File.file_path file) as [[|c path]|]; [done| |done].
  cbn [ret app]. rewrite (right_id_L [] (++)).
  by destruct (process_message _ _).
Qed.

Lemma image_attempt_quiet message file_id sender h :
  messaging (events (image_attempt py_str w message file_id sender) h) = [].
Proof.
  unfold events. rewrite image_attempt_run. cbn zeta.
  destruct (resolution_failure _); [done|].
  destruct (get_file w _ file_id) as [file|e]; [|done].
  pose proof (process_message_quiet {|
    SplitBotRequest.message := "";
    SplitBotRequest.group_id := pretty (Chat.id (Message.chat message));
    SplitBotRequest.sender := sender;
    SplitBotRequest.image_url := File.file_path file |}
    (h ++ [Log INFO ("Fetching file path for - " +:+ file_id);
           GetFile file_id (Ok file)])) as Hquiet.
  unfold events in Hquiet. by destruct (process_message _ _).
Qed.

(** ** The guarded region, for any handler *)

Lemma run_path_escapes lp rp from_user first h evs e' :
  run_path w lp rp from_user first h evs (Raise e') → escapes lp rp evs e'.
Proof.
  inversion 1 as [|author e|author pm tail r ? ? h1 attempt Hexit];
    simplify_eq; [by left|by right; left|].
  right; right.
  inversion Hexit as [|r1 pre e tail' r Hcaught Hrec]; simplify_eq.
  exists (ReplyText NOTICE (Ok pm) :: events attempt h1 ++ pre), pm, e, tail'.
  split; [|done]. cbn [app]. by rewrite <- (assoc_L (++)).
Qed.

Lemma run_path_cleanup lp rp from_user first h evs r pm rest :
  run_path w lp rp from_user first h evs r →
  (∀ sender h', messaging (events (first sender) h') = []) →
  evs = ReplyText NOTICE (Ok pm) :: rest →
  (∃ deleted later, messaging rest = Delete pm deleted :: later)
  ∧ (Forall returned (messaging rest) →
     r = Ok tt
     ∧ ∃ final id, messaging rest = [Delete pm (Ok tt); ReplyText final (Ok id)]).
Proof.
  intros Hpath Hquiet Hevs.
  inversion Hpath as [|author e|author pm' tail r' ? ? h1 attempt Hexit];
    simplify_eq.
  rewrite messaging_app. subst attempt. rewrite Hquiet. cbn [app].
  inversion Hexit as [ai id|r1 pre e tail' r' Hcaught Hrec]; simplify_eq.
  - split; [by eexists _, _|]. intros _. split; [done|]. by eexists _, _.
  - rewrite messaging_app.
    destruct Hcaught, Hrec; (split; [by eexists _, _|]);
      intros Hall; cbn in Hall; rewrite ?Forall_cons in Hall; cbn in Hall;
      first [by split; [|eexists _, _] | by decompose [and ex] Hall].
Qed.

(** ** What the handlers send to the backend *)

Lemma handle_message_cases update h :
  handle_message update h = ([], Ok tt)
  ∨ ∃ message text,
      Update.message update = Some message
      ∧ Message.text message = Some text ∧ mentions BOT_NAME text.
Proof.
  destruct (Update.message update) as [message|] eqn:Hmessage;
    [|left; by apply handle_message_ignored; intros; simplify_eq].
  destruct (Message.text message) as [text|] eqn:Htext;
    [|left; by apply handle_message_ignored; intros; simplify_eq].
  destruct (substring_in ("@" +:+ BOT_NAME) text) eqn:Hin.
  - right. exists message, text. by rewrite <- mentions_spec.
  - left. apply handle_message_ignored. by intros; simplify_eq.
Qed.

Lemma handle_image_cases update h :
  handle_image update h = ([], Ok tt)
  ∨ ∃ message file_id,
      Update.message update = Some message
      ∧ selected_file_id message = Some file_id.
Proof.
  destruct (Update.message update) as [message|] eqn:Hmessage;
    [|left; by apply handle_image_ignored; intros; simplify_eq].
  destruct (selected_file_id message) as [file_id|] eqn:Hsel; [by eauto|].
  left. apply handle_image_ignored. by intros; simplify_eq.
Qed.

Lemma run_path_calls lp rp from_user first h evs r call :
  run_path w lp rp from_user first h evs r →
  call ∈ outbound_calls evs →
  ∃ author h1,
    from_user = Some author
    ∧ call ∈ outbound_calls (events (first (User.username author)) h1).
Proof.
  inversion 1 as [|author e|author pm tail r' ? ? h1 attempt Hexit];
    simplify_eq; [by intros ?%elem_of_nil..|].
  change (?x :: ?l ++ ?t) with ([x] ++ l ++ t).
  rewrite !outbound_calls_app, (exit_path_calls _ _ _ Hexit).
  rewrite (right_id_L [] (++)). cbn [outbound_calls omap list_omap app].
  by exists author, h1.
Qed.

Lemma handle_message_calls update h url payload :
  (url, payload) ∈ outbound_calls (events (handle_message update) h) →
  ∃ message text author,
    Update.message update = Some message
    ∧ Message.text message = Some text
    ∧ Message.from_user message = Some author
    ∧ payload = SplitBotRequest.to_dict {|
        SplitBotRequest.message := text;
        SplitBotRequest.group_id := pretty (Chat.id (Message.chat message));
        SplitBotRequest.sender := User.username author;
        SplitBotRequest.image_url := None |}.
Proof.
  destruct (handle_message_cases update h)
    as [Hignored|(message & text & Hmessage & Htext & Hin)].
  { unfold events. rewrite Hignored. by intros ?%elem_of_nil. }
  intros Hcall.
  destruct (run_path_calls _ _ _ _ _ _ _ _
              (handle_message_paths _ _ _ h Hmessage Htext Hin) Hcall)
    as (author & h1 & Hauthor & Hcall').
  exists message, text, author. split_and!; [done..|].
  unfold message_attempt in Hcall'. rewrite process_message_calls in Hcall'.
  destruct (getenv w "SPLIT_BOT_URL") as [[|c base]|];
    [by apply elem_of_nil in Hcall'| |by apply elem_of_nil in Hcall'].
  apply list_elem_of_singleton in Hcall'. by simplify_eq.
Qed.

Lemma handle_image_calls update h url payload :
  (url, payload) ∈ outbound_calls (events (handle_image update) h) →
  ∃ message author image,
    Update.message update = Some message
    ∧ Message.from_user message = Some author
    ∧ payload = SplitBotRequest.to_dict {|
        SplitBotRequest.message := "";
        SplitBotRequest.group_id := pretty (Chat.id (Message.chat message));
        SplitBotRequest.sender := User.username author;
        SplitBotRequest.image_url := Some image |}.
Proof.
  destruct (handle_image_cases update h)
    as [Hignored|(message & file_id & Hmessage & Hsel)].
  { unfold events. rewrite Hignored. by intros ?%elem_of_nil. }
  intros Hcall.
  destruct (run_path_calls _ _ _ _ _ _ _ _
              (handle_image_paths _ _ _ h Hmessage Hsel) Hcall)
    as (author & h1 & Hauthor & Hcall').
  exists message, author.
  unfold events in Hcall'. rewrite image_attempt_run in Hcall'.
  cbn zeta in Hcall'.
  destruct (resolution_failure _) eqn:Hfail;
    [by apply elem_of_nil in Hcall'|].
  destruct (get_file w _ file_id) as [file|e];
    [|by apply elem_of_nil in Hcall'].
  cbn [resolution_failure] in Hfail.
  destruct (File.file_path file) as [[|c image]|] eqn:Hpath; [done| |done].
  exists (String c image). split_and!; [done..|].
  pose proof (process_message_calls {|
    SplitBotRequest.message := "";
    SplitBotRequest.group_id := pretty (Chat.id (Message.chat message));
    SplitBotRequest.sender := User.username author;
    SplitBotRequest.image_url := Some (String c image) |}
    (h1 ++ [Log INFO ("Fetching file path for - " +:+ file_id);
            GetFile file_id (Ok file)])) as Hcalls.
  unfold events in Hcalls. destruct (process_message _ _) as [evs r].
  cbn [fst] in Hcall', Hcalls.
  change (?x :: ?y :: evs) with ([x; y] ++ evs) in Hcall'.
  rewrite outbound_calls_app, Hcalls in Hcall'.
  cbn [outbound_calls omap list_omap app] in Hcall'.
  destruct (getenv w "SPLIT_BOT_URL") as [[|c' base]|];
    [by apply elem_of_nil in Hcall'| |by apply elem_of_nil in Hcall'].
  apply list_elem_of_singleton in Hcall'. by simplify_eq.
Qed.

(** ** The files a run asks for *)

Lemma fetched_app evs evs' : fetched (evs ++ evs') = fetched evs ++ fetched evs'.
Proof. apply omap_app. Qed.

Lemma process_message_fetched request h :
  fetched (events (process_message request) h) = [].
Proof.
  unfold events. rewrite process_message_run.
  destruct (getenv w "SPLIT_BOT_URL") as [[|c base]|]; [done| |done].
  cbn zeta. destruct (post w _ _ _) as [response|e]; [|done].
  by destruct (Response.json response).
Qed.

Lemma exit_path_fetched lp rp pm r1 tail r :
  exit_path lp rp pm r1 tail r → fetched tail = [].
Proof.
  destruct 1 as [|r1 pre e tail r Hcaught Hrec]; [done|].
  rewrite fetched_app. by destruct Hcaught, Hrec.
Qed.

Lemma image_attempt_fetched message file_id sender h :
  fetched (events (image_attempt py_str w message file_id sender) h)
  = [file_id].
Proof.
  unfold events. rewrite image_attempt_run. cbn zeta.
  destruct (resolution_failure _); [done|].
  destruct (get_file w _ file_id) as [file|e]; [|done].
  pose proof (process_message_fetched {|
    SplitBotRequest.message := "";
    SplitBotRequest.group_id := pretty (Chat.id (Message.chat message));
    SplitBotRequest.sender := sender;
    SplitBotRequest.image_url := File.file_path file |}
    (h ++ [Log INFO ("Fetching file path for - " +:+ file_id);
           GetFile file_id (Ok file)])) as Hnone.
  unfold events in Hnone. destruct (process_message _ _) as [evs r].
  cbn [fst] in *. cbn [fetched omap list_omap]. fold (fetched evs).
  by rewrite Hnone.
Qed.

(** ** The image event's file, as the handler selects it *)

Lemma offers_selected message file_id :
  offers message file_id ↔ selected_file_id message = Some file_id.
Proof.
  unfold offers, selected_file_id. split.
  - intros [(photo & -> & ->)|(Hphoto & document & -> & ->)]; [done|].
    by rewrite Hphoto.
  - destruct (last (Message.photo message)) as [photo|] eqn:Hlast.
    + intros [= <-]. left. by exists photo.
    + apply last_None in Hlast.
      destruct (Message.document message) as [document|]; [|done].
      intros [= <-]. right. split; [done|]. by exists document.
Qed.

(** ** Before the try block *)

Lemma run_path_no_author lp rp from_user first h evs r :
  run_path w lp rp from_user first h evs r →
  from_user = None →
  (evs, r)
  = ([], Raise (AttributeError "'NoneType' object has no attribute 'username'")).
Proof. destruct 1; intros; by simplify_eq. Qed.

Lemma run_path_notice_raises lp rp from_user first h evs r author e :
  run_path w lp rp from_user first h evs r →
  from_user = Some author →
  reply_text w h NOTICE = Raise e →
  (evs, r) = ([ReplyText NOTICE (Raise e)], Raise e).
Proof. destruct 1; intros; simplify_eq; congruence. Qed.

(** The attempt of the image handler on a file that resolved. *)
Lemma image_attempt_resolved message file_id sender h file image :
  get_file w (h ++ [Log INFO ("Fetching file path for - " +:+ file_id)]) file_id
  = Ok file →
  File.file_path file = Some image → image ≠ "" →
  ∃ h',
    events (image_attempt py_str w message file_id sender) h
    = Log INFO ("Fetching file path for - " +:+ file_id)
      :: GetFile file_id (Ok file)
      :: events (process_message {|
           SplitBotRequest.message := "";
           SplitBotRequest.group_id := pretty (Chat.id (Message.chat message));
           SplitBotRequest.sender := sender;
           SplitBotRequest.image_url := Some image |}) h'.
Proof.
  intros Hfile Hpath Himage.
  exists (h ++ [Log INFO ("Fetching file path for - " +:+ file_id);
                GetFile file_id (Ok file)]).
  unfold events at 1. rewrite image_attempt_run. cbn zeta.
  rewrite Hfile. cbn [resolution_failure]. rewrite Hpath.
  destruct image as [|c image]; [done|].
  unfold events. by destruct (process_message _ _).
Qed.

(** ** Serialization *)

(** C4.  [to_dict] always emits [message], [group_id] and [sender]; it emits
    [image_url] exactly when the request has one, and then as that string:
    with no image the key is absent, and it is never present as null. *)
Theorem to_dict_keys (request : SplitBotRequest.t) :
  let payload := SplitBotRequest.to_dict request in
  payload !! "message" = Some (VStr (SplitBotRequest.message request))
  ∧ payload !! "group_id" = Some (VStr (SplitBotRequest.group_id request))
  ∧ payload !! "sender" = Some (opt_str (SplitBotRequest.sender request))
  ∧ payload !! "image_url" = VStr <$> SplitBotRequest.image_url request
  ∧ ("image_url" ∈ dom payload ↔ is_Some (SplitBotRequest.image_url request))
  ∧ payload !! "image_url" ≠ Some VNone
  ∧ dom payload =
      {["message"; "group_id"; "sender"]}
      ∪ (if SplitBotRequest.image_url request is Some _
         then {["image_url"]} else ∅).
Proof.
  destruct request as [message group_id sender [url|]];
    cbn [SplitBotRequest.to_dict SplitBotRequest.image_url
         SplitBotRequest.message SplitBotRequest.group_id
         SplitBotRequest.sender]; cbn zeta.
  all: split_and!; try (by simplify_map_eq).
  all: try (rewrite !dom_insert_L, dom_empty_L; set_solver).
Qed.

(** ** The outbound client *)

(** C10.  The body is decoded before the status is looked at: whenever the
    POST returned a response whose body is not JSON, the call ends with the
    decoder's error, whatever the status code, and so not with the
    request-failure error that carries the status. *)
Theorem process_message_decodes_first request h url body response msg :
  Post url body (Ok response) ∈ events (process_message request) h →
  Response.json response = Raise (JSONDecodeError msg) →
  outcome (process_message request) h = Raise (JSONDecodeError msg)
  ∧ outcome (process_message request) h ≠
      Raise (ValueError ("Request failed with status code "
                         +:+ pretty (Response.status_code response))).
Proof.
  intros Hposted Hjson.
  rewrite (process_message_posted _ _ _ _ _ Hposted), Hjson. by split.
Qed.

(** C1, amended.  Once the POST has returned a response whose body decodes
    as JSON, the checks run in this order: a status other than 200 fails
    with the request-failure error carrying the status code; otherwise, for
    a JSON object, an [error] field that is a non-empty string fails with
    the upstream error carrying it; and with [error] absent, null or the
    empty string the call returns the [response] field, or the empty string
    when there is none. *)
Theorem process_message_validation request h url body response data :
  Post url body (Ok response) ∈ events (process_message request) h →
  Response.json response = Ok data →
  let status := Response.status_code response in
  let out := outcome (process_message request) h in
  (status ≠ 200%Z →
     out = Raise (ValueError
                    ("Request failed with status code " +:+ pretty status)))
  ∧ (status = 200%Z → ∀ d, data = VDict d →
       (∀ message, d !! "error" = Some (VStr message) → message ≠ "" →
          out = Raise (ValueError ("Error in response: " +:+ message)))
       ∧ (d !! "error" = None ∨ d !! "error" = Some VNone
          ∨ d !! "error" = Some (VStr "") →
          out = Ok (default (VStr "") (d !! "response")))).
Proof.
  intros Hposted Hjson status out. subst out.
  rewrite (process_message_posted _ _ _ _ _ Hposted), Hjson.
  unfold validated. fold status. split.
  - intros Hstatus. by apply Z.eqb_neq in Hstatus as ->.
  - intros Hstatus d ->. rewrite Hstatus. cbn [Z.eqb Pos.eqb negb]. split.
    + intros message -> Hmessage. cbn [default].
      destruct message; [done|]. done.
    + by intros [->|[->| ->]].
Qed.

(** The same step for any JSON value in [error]: [or ""] keeps a truthy
    value and replaces every other by the empty string. *)
Lemma validated_error response d :
  Response.status_code response = 200%Z →
  validated response (VDict d) =
  let error := default VNone (d !! "error") in
  if truthy error then
    Raise (ValueError ("Error in response: " +:+ fmt py_str error))
  else Ok (default (VStr "") (d !! "response")).
Proof.
  intros Hstatus. unfold validated, py_or. rewrite Hstatus.
  cbn [Z.eqb Pos.eqb negb]. cbn zeta.
  destruct (default VNone (d !! "error")) as [|[]|n|f|[|c s]|[|v l]|m];
    cbn [truthy negb ne_str String.eqb]; try done.
  - by destruct (negb _).
  - by destruct (negb _).
  - by destruct (map_to_list m).
Qed.

(** ** The text handler *)

(** C2.  A text event is ignored, with no notice, no outbound call and no
    reply, when it has no text or its text does not contain the mention
    token; and the test is the plain substring test: a text that contains
    the token anywhere is never ignored. *)
Theorem handle_message_needs_mention update h :
  ((∀ message text, Update.message update = Some message →
      Message.text message = Some text → ¬ mentions BOT_NAME text) →
   handle_message update h = ([], Ok tt))
  ∧ (∀ message text, Update.message update = Some message →
       Message.text message = Some text → mentions BOT_NAME text →
       (Message.from_user message = None
        ∧ handle_message update h =
            ([], Raise (AttributeError
                   "'NoneType' object has no attribute 'username'")))
       ∨ ∃ answer rest,
           events (handle_message update) h = ReplyText NOTICE answer :: rest).
Proof.
  split.
  - intros Hno. apply handle_message_ignored. intros message text Hm Ht.
    destruct (substring_in _ text) eqn:Hin; [|done].
    apply mentions_spec in Hin. by destruct (Hno message text Hm Ht).
  - intros message text Hm Ht Hin.
    pose proof (handle_message_paths _ _ _ h Hm Ht Hin) as Hpath.
    unfold events, outcome in *.
    destruct (handle_message update h) as [evs r]. cbn [fst snd] in *.
    inversion Hpath; simplify_eq; eauto.
Qed.

(** C3, amended.  For a text event that contains the mention token, once
    the author is known, the notice has been sent and the endpoint is
    configured, the handler makes exactly one outbound call; its request
    carries the whole original text as [message], and its payload has no
    [image_url] key. *)
Theorem handle_message_outbound_call update message text author notice base h :
  Update.message update = Some message →
  Message.text message = Some text →
  mentions BOT_NAME text →
  Message.from_user message = Some author →
  reply_text w h NOTICE = Ok notice →
  getenv w "SPLIT_BOT_URL" = Some base → base ≠ "" →
  ∃ payload,
    outbound_calls (events (handle_message update) h)
      = [(base +:+ "/process_message", payload)]
    ∧ payload = SplitBotRequest.to_dict {|
        SplitBotRequest.message := text;
        SplitBotRequest.group_id := pretty (Chat.id (Message.chat message));
        SplitBotRequest.sender := User.username author;
        SplitBotRequest.image_url := None |}
    ∧ payload !! "message" = Some (VStr text)
    ∧ payload !! "image_url" = None
    ∧ "image_url" ∉ dom payload.
Proof.
  intros Hm Ht Hin Hauthor Hnotice Henv Hbase.
  destruct (run_path_guarded _ _ _ _ _ _ _ _ _
              (handle_message_paths _ _ _ h Hm Ht Hin) Hauthor Hnotice)
    as (tail & Hevs & Hexit).
  eexists. split; [|split; [done|]].
  - rewrite Hevs. change (?x :: ?l ++ ?t) with ([x] ++ l ++ t).
    rewrite !outbound_calls_app, (exit_path_calls _ _ _ Hexit).
    unfold message_attempt. rewrite process_message_calls, Henv.
    by destruct base.
  - split_and!; [by simplify_map_eq..|].
    rewrite not_elem_of_dom. by simplify_map_eq.
Qed.

(** ** The image handler *)

(** C5, amended.  For an image event, a photo or an image document, whose
    author is known and whose notice has been sent, whose file the platform
    resolves to a non-empty path, and with the endpoint configured, the
    handler makes exactly one outbound call, with the empty string as
    [message] and that path as [image_url].  The one file it asks for is the
    last listed size of the photo, the largest one when the sizes come in
    ascending order, and the document when there is no photo. *)
Theorem handle_image_outbound_call update message file_id author notice file
    image base h :
  Update.message update = Some message →
  offers message file_id →
  Message.from_user message = Some author →
  reply_text w h NOTICE = Ok notice →
  get_file w (h ++ [ReplyText NOTICE (Ok notice);
                    Log INFO ("Fetching file path for - " +:+ file_id)])
    file_id = Ok file →
  File.file_path file = Some image → image ≠ "" →
  getenv w "SPLIT_BOT_URL" = Some base → base ≠ "" →
  (∃ payload,
     outbound_calls (events (handle_image update) h)
       = [(base +:+ "/process_message", payload)]
     ∧ payload = SplitBotRequest.to_dict {|
         SplitBotRequest.message := "";
         SplitBotRequest.group_id := pretty (Chat.id (Message.chat message));
         SplitBotRequest.sender := User.username author;
         SplitBotRequest.image_url := Some image |}
     ∧ payload !! "message" = Some (VStr "")
     ∧ payload !! "image_url" = Some (VStr image))
  ∧ fetched (events (handle_image update) h) = [file_id]
  ∧ (∀ photo, last (Message.photo message) = Some photo →
       file_id = PhotoSize.file_id photo
       ∧ (ascending (Message.photo message) →
          ∀ size, size ∈ Message.photo message →
            (PhotoSize.pixels size ≤ PhotoSize.pixels photo)%Z)).
Proof.
  intros Hmessage Hsel%offers_selected Hauthor Hnotice Hfile Hpath Himage
    Henv Hbase.
  destruct (run_path_guarded _ _ _ _ _ _ _ _ _
              (handle_image_paths _ _ _ h Hmessage Hsel) Hauthor Hnotice)
    as (tail & Hevs & Hexit).
  change (h ++ [?x; ?y]) with (h ++ [x] ++ [y]) in Hfile.
  rewrite (assoc_L (++)) in Hfile.
  destruct (image_attempt_resolved message file_id (User.username author)
              _ _ _ Hfile Hpath Himage) as [h' Hattempt].
  split_and!.
  - eexists. split; [|split; [done|]].
    + rewrite Hevs, Hattempt.
      change (?x :: (?y :: ?z :: ?l) ++ ?t) with ([x; y; z] ++ l ++ t).
      rewrite !outbound_calls_app, (exit_path_calls _ _ _ Hexit).
      rewrite process_message_calls, Henv. by destruct base.
    + split; by simplify_map_eq.
  - rewrite Hevs. change (?x :: ?l ++ ?t) with ([x] ++ l ++ t).
    by rewrite !fetched_app, image_attempt_fetched,
      (exit_path_fetched _ _ _ _ _ _ Hexit).
  - intros photo Hlast. unfold selected_file_id in Hsel.
    rewrite Hlast in Hsel. simplify_eq. split; [done|].
    intros Hasc size [i Hi]%list_elem_of_lookup.
    rewrite last_lookup in Hlast.
    apply (Hasc i (pred (length (Message.photo message)))); [|done..].
    apply lookup_lt_Some in Hi. lia.
Qed.

(** C8, amended.  For an image event, a photo or an image document, whose
    author is known and whose notice has been sent, and whose file does not
    resolve (the call raises, or the file comes without a path), the handler
    makes no outbound call: it logs the failure and deletes the notice.
    When that deletion returns, its last action is the reply
    "Error processing image: " followed by the failure; when the deletion
    raises, no reply is attempted and the exception leaves the handler. *)
Theorem handle_image_unresolved update message file_id author notice answer e
    h :
  Update.message update = Some message →
  offers message file_id →
  Message.from_user message = Some author →
  reply_text w h NOTICE = Ok notice →
  get_file w (h ++ [ReplyText NOTICE (Ok notice);
                    Log INFO ("Fetching file path for - " +:+ file_id)])
    file_id = answer →
  resolution_failure answer = Some e →
  outbound_calls (events (handle_image update) h) = []
  ∧ ∃ deleted rest,
      events (handle_image update) h
      = [ReplyText NOTICE (Ok notice);
         Log INFO ("Fetching file path for - " +:+ file_id);
         GetFile file_id answer;
         Log ERROR ("Error processing image: " +:+ str e);
         Delete notice deleted] ++ rest
      ∧ match deleted with
        | Ok _ =>
            ∃ sent,
              rest = [ReplyText (VStr ("Error processing image: " +:+ str e))
                        sent]
              ∧ outcome (handle_image update) h
                = match sent with Ok _ => Ok tt | Raise e' => Raise e' end
        | Raise e' =>
            rest = [] ∧ outcome (handle_image update) h = Raise e'
        end.
Proof.
  intros Hmessage Hsel%offers_selected Hauthor Hnotice Hanswer Hfail.
  destruct (run_path_guarded _ _ _ _ _ _ _ _ _
              (handle_image_paths _ _ _ h Hmessage Hsel) Hauthor Hnotice)
    as (tail & Hevs & Hexit).
  change (h ++ [?x; ?y]) with (h ++ [x] ++ [y]) in Hanswer.
  rewrite (assoc_L (++)) in Hanswer.
  rewrite Hevs. clear Hevs.
  unfold events, outcome in Hexit |- *.
  rewrite image_attempt_run in Hexit |- *. cbn zeta in Hexit |- *.
  rewrite Hanswer, Hfail in Hexit |- *. cbn [fst snd] in Hexit |- *.
  inversion Hexit as [|r1 pre e' tail' r Hcaught Hrec]; simplify_eq.
  inversion Hcaught; simplify_eq.
  destruct Hrec as [e''|e''|id]; (split; [done|]).
  - by exists (Raise e''), [].
  - eexists (Ok tt), _. split; [reflexivity|]. by eexists.
  - eexists (Ok tt), _. split; [reflexivity|]. by eexists.
Qed.

(** ** Both handlers *)

(** C9, amended.  In every payload a handler posts, [sender] is the author's
    username: that string when the author has one, and null when the author
    has none.  [message] and [group_id] are strings, and [image_url], when
    present, is a string. *)
Theorem payload_sender update h url payload :
  (url, payload) ∈ outbound_calls (events (handle_message update) h)
  ∨ (url, payload) ∈ outbound_calls (events (handle_image update) h) →
  ∃ message author,
    Update.message update = Some message
    ∧ Message.from_user message = Some author
    ∧ payload !! "sender"
        = Some (match User.username author with
                | Some name => VStr name
                | None => VNone
                end)
    ∧ (∃ text, payload !! "message" = Some (VStr text))
    ∧ (∃ group, payload !! "group_id" = Some (VStr group))
    ∧ (payload !! "image_url" = None
       ∨ ∃ image, payload !! "image_url" = Some (VStr image)).
Proof.
  intros [Hcall|Hcall].
  - destruct (handle_message_calls _ _ _ _ Hcall)
      as (message & text & author & Hmessage & _ & Hauthor & ->).
    exists message, author. split_and!; [done..| | | |].
    + by simplify_map_eq.
    + eexists. by simplify_map_eq.
    + eexists. by simplify_map_eq.
    + left. by simplify_map_eq.
  - destruct (handle_image_calls _ _ _ _ Hcall)
      as (message & author & image & Hmessage & Hauthor & ->).
    exists message, author. split_and!; [done..| | | |].
    + by simplify_map_eq.
    + eexists. by simplify_map_eq.
    + eexists. by simplify_map_eq.
    + right. eexists. by simplify_map_eq.
Qed.

(** C6, amended.  In a run that sent the processing notice, the first chat
    action after it is a deletion of that notice, so no reply is attempted
    before a deletion is; and when every deletion and reply of the run
    returns, the chat actions after the notice are exactly one deletion of
    it followed by one final reply, and the handler returns. *)
Theorem notice_cleanup (handler : Update.t → M unit) update h pm rest :
  handler = handle_message ∨ handler = handle_image →
  events (handler update) h = ReplyText NOTICE (Ok pm) :: rest →
  (∃ deleted later, messaging rest = Delete pm deleted :: later)
  ∧ (Forall returned (messaging rest) →
     outcome (handler update) h = Ok tt
     ∧ ∃ final id,
         messaging rest = [Delete pm (Ok tt); ReplyText final (Ok id)]).
Proof.
  intros [-> | ->] Hevs.
  - destruct (handle_message_cases update h)
      as [Hignored|(message & text & Hmessage & Htext & Hin)].
    { unfold events in Hevs. by rewrite Hignored in Hevs. }
    eapply run_path_cleanup;
      [by apply handle_message_paths| |done].
    intros sender h'. apply process_message_quiet.
  - destruct (handle_image_cases update h)
      as [Hignored|(message & file_id & Hmessage & Hsel)].
    { unfold events in Hevs. by rewrite Hignored in Hevs. }
    eapply run_path_cleanup;
      [by apply handle_image_paths| |done].
    intros sender h'. apply image_attempt_quiet.
Qed.

(** C7, amended.  An exception raised before the try block leaves the
    handler: with no author, reading the username fails and nothing is sent
    or logged; when the sending of the notice raises, that exception leaves
    the handler after that one call.  Once the notice is out, a handler's
    run is its attempt followed by one of the exit paths: whatever the try
    block raises (in the outbound client or the file resolution, in the
    deletion of the notice, in the reply) is caught and logged with its
    text; the notice is then deleted and, if that deletion returns, the
    reply "Error processing {message|image}: " with the same text is sent,
    after which the handler returns; an exception of that deletion or of
    that reply leaves the handler.  An exception leaves a handler only in
    these ways. *)
Theorem exceptions_at_the_boundary update h :
  (∀ message text,
     Update.message update = Some message →
     Message.text message = Some text → mentions BOT_NAME text →
     (Message.from_user message = None →
      handle_message update h
      = ([], Raise (AttributeError
                      "'NoneType' object has no attribute 'username'")))
     ∧ (∀ author e,
          Message.from_user message = Some author →
          reply_text w h NOTICE = Raise e →
          handle_message update h = ([ReplyText NOTICE (Raise e)], Raise e))
     ∧ (∀ author pm,
          Message.from_user message = Some author →
          reply_text w h NOTICE = Ok pm →
          let h1 := h ++ [ReplyText NOTICE (Ok pm)] in
          let attempt :=
            message_attempt py_str w message text (User.username author) in
          ∃ tail,
            events (handle_message update) h
              = ReplyText NOTICE (Ok pm) :: events attempt h1 ++ tail
            ∧ exit_path "Error processing message with AI: "
                "Error processing message: " pm
                (outcome attempt h1) tail (outcome (handle_message update) h)))
  ∧ (∀ message file_id,
       Update.message update = Some message →
       offers message file_id →
       (Message.from_user message = None →
        handle_image update h
        = ([], Raise (AttributeError
                        "'NoneType' object has no attribute 'username'")))
       ∧ (∀ author e,
            Message.from_user message = Some author →
            reply_text w h NOTICE = Raise e →
            handle_image update h = ([ReplyText NOTICE (Raise e)], Raise e))
       ∧ (∀ author pm,
            Message.from_user message = Some author →
            reply_text w h NOTICE = Ok pm →
            let h1 := h ++ [ReplyText NOTICE (Ok pm)] in
            let attempt :=
              image_attempt py_str w message file_id (User.username author) in
            ∃ tail,
              events (handle_image update) h
                = ReplyText NOTICE (Ok pm) :: events attempt h1 ++ tail
              ∧ exit_path "Error processing image: "
                  "Error processing image: " pm
                  (outcome attempt h1) tail (outcome (handle_image update) h)))
  ∧ (∀ e', outcome (handle_message update) h = Raise e' →
       escapes "Error processing message with AI: "
         "Error processing message: " (events (handle_message update) h) e')
  ∧ (∀ e', outcome (handle_image update) h = Raise e' →
       escapes "Error processing image: " "Error processing image: "
         (events (handle_image update) h) e').
Proof.
  split_and!.
  - intros message text Hmessage Htext Hin.
    pose proof (handle_message_paths _ _ _ h Hmessage Htext Hin) as Hpath.
    split_and!.
    + intros Hauthor. rewrite <- (run_path_no_author _ _ _ _ _ _ _ Hpath Hauthor).
      unfold events, outcome. by destruct (handle_message update h).
    + intros author e Hauthor Hnotice.
      rewrite <- (run_path_notice_raises _ _ _ _ _ _ _ _ _ Hpath Hauthor Hnotice).
      unfold events, outcome. by destruct (handle_message update h).
    + intros author pm Hauthor Hnotice.
      by apply run_path_guarded with (Message.from_user message).
  - intros message file_id Hmessage Hsel%offers_selected.
    pose proof (handle_image_paths _ _ _ h Hmessage Hsel) as Hpath.
    split_and!.
    + intros Hauthor. rewrite <- (run_path_no_author _ _ _ _ _ _ _ Hpath Hauthor).
      unfold events, outcome. by destruct (handle_image update h).
    + intros author e Hauthor Hnotice.
      rewrite <- (run_path_notice_raises _ _ _ _ _ _ _ _ _ Hpath Hauthor Hnotice).
      unfold events, outcome. by destruct (handle_image update h).
    + intros author pm Hauthor Hnotice.
      by apply run_path_guarded with (Message.from_user message).
  - intros e' Hout.
    destruct (handle_message_cases update h)
      as [Hignored|(message & text & Hmessage & Htext & Hin)].
    { unfold outcome in Hout. by rewrite Hignored in Hout. }
    pose proof (handle_message_paths _ _ _ h Hmessage Htext Hin) as Hpath.
    rewrite Hout in Hpath. by apply run_path_escapes in Hpath.
  - intros e' Hout.
    destruct (handle_image_cases update h)
      as [Hignored|(message & file_id & Hmessage & Hsel)].
    { unfold outcome in Hout. by rewrite Hignored in Hout. }
    pose proof (handle_image_paths _ _ _ h Hmessage Hsel) as Hpath.
    rewrite Hout in Hpath. by apply run_path_escapes in Hpath.
Qed.

(** * Further properties of the outbound client *)

(** X1.  Without an endpoint, unset or empty, the call fails at once with
    the configuration error: nothing is logged and nothing is sent. *)
Theorem process_message_unconfigured request h :
  getenv w "SPLIT_BOT_URL" = None ∨ getenv w "SPLIT_BOT_URL" = Some "" →
  process_message request h
  = ([], Raise (ValueError "SPLIT_BOT_URL not found in environment variables")).
Proof. intros [Henv|Henv]; by rewrite process_message_run, Henv. Qed.

(** X2.  In every world a call makes at most one POST: exactly one, to the
    endpoint followed by "/process_message" and carrying the serialized
    request, when an endpoint is configured, none otherwise; and it performs
    no chat action and fetches no file. *)
Theorem process_message_single_post request h :
  (∀ base, getenv w "SPLIT_BOT_URL" = Some base → base ≠ "" →
     outbound_calls (events (process_message request) h)
     = [(base +:+ "/process_message", SplitBotRequest.to_dict request)])
  ∧ (getenv w "SPLIT_BOT_URL" = None ∨ getenv w "SPLIT_BOT_URL" = Some "" →
     outbound_calls (events (process_message request) h) = [])
  ∧ length (outbound_calls (events (process_message request) h)) ≤ 1
  ∧ messaging (events (process_message request) h) = []
  ∧ (∀ file_id answer,
       GetFile file_id answer ∉ events (process_message request) h).
Proof.
  split_and!.
  - intros base Henv Hbase. rewrite process_message_calls, Henv.
    by destruct base.
  - intros [Henv|Henv]; by rewrite process_message_calls, Henv.
  - rewrite process_message_calls.
    destruct (getenv w "SPLIT_BOT_URL") as [[|c base]|]; cbn; lia.
  - apply process_message_quiet.
  - intros file_id answer. apply process_message_no_get_file.
Qed.

(** X3.  When the POST itself raises (no connection, a timeout), the call
    ends with that exception, unchanged, and the POST is its last event:
    no status is logged and no body is decoded. *)
Theorem process_message_transport_error request h url body e :
  Post url body (Raise e) ∈ events (process_message request) h →
  outcome (process_message request) h = Raise e
  ∧ last (events (process_message request) h) = Some (Post url body (Raise e)).
Proof.
  unfold events, outcome. rewrite process_message_run.
  destruct (getenv w "SPLIT_BOT_URL") as [[|c base]|];
    [by intros ?%elem_of_nil| |by intros ?%elem_of_nil].
  cbn zeta. destruct (post w _ _ _) as [response|e'] eqn:Hpost.
  - destruct (Response.json response); cbn [fst snd app];
      intros Hin; only_post Hin.
  - cbn [fst snd app]. intros Hin. only_post Hin. done.
Qed.

(** X4.  A 200 response whose body is JSON but not an object (a list, a
    string, a number, null) ends with the AttributeError of the missing
    [get], named after the body's type. *)
Theorem process_message_not_an_object request h url body response data :
  Post url body (Ok response) ∈ events (process_message request) h →
  Response.json response = Ok data →
  Response.status_code response = 200%Z →
  (∀ d, data ≠ VDict d) →
  outcome (process_message request) h
  = Raise (AttributeError
             ("'" +:+ type_name data +:+ "' object has no attribute 'get'")).
Proof.
  intros Hposted Hjson Hstatus Hdata.
  rewrite (process_message_posted _ _ _ _ _ Hposted), Hjson.
  unfold validated. rewrite Hstatus. cbn [Z.eqb Pos.eqb negb].
  destruct data; try done. by destruct (Hdata d).
Qed.

(** X5.  On a 200 response with an object body, the [error] field counts by
    its truth value, whatever its type: a truthy one (a non-empty string, a
    non-zero number, [true], a non-empty list or object) fails the call,
    carrying the field's rendering; a missing or falsy one ([null], "",
    [false], 0, [[]], [{}]) lets the call return the [response] field as it
    is, of whatever type, or "" when the key is missing. *)
Theorem process_message_error_truthiness request h url body response d :
  Post url body (Ok response) ∈ events (process_message request) h →
  Response.json response = Ok (VDict d) →
  Response.status_code response = 200%Z →
  let error := default VNone (d !! "error") in
  outcome (process_message request) h
  = if truthy error
    then Raise (ValueError ("Error in response: " +:+ fmt py_str error))
    else Ok (default (VStr "") (d !! "response")).
Proof.
  intros Hposted Hjson Hstatus.
  rewrite (process_message_posted _ _ _ _ _ Hposted), Hjson.
  by apply validated_error.
Qed.

Lemma to_dict_lookups (request : SplitBotRequest.t) :
  SplitBotRequest.to_dict request !! "message"
  = Some (VStr (SplitBotRequest.message request))
  ∧ SplitBotRequest.to_dict request !! "group_id"
    = Some (VStr (SplitBotRequest.group_id request))
  ∧ SplitBotRequest.to_dict request !! "sender"
    = Some (opt_str (SplitBotRequest.sender request))
  ∧ SplitBotRequest.to_dict request !! "image_url"
    = VStr <$> SplitBotRequest.image_url request.
Proof.
  destruct request as [message group_id sender [url|]];
    cbn [SplitBotRequest.to_dict SplitBotRequest.image_url
         SplitBotRequest.message SplitBotRequest.group_id
         SplitBotRequest.sender]; cbn zeta.
  all: split_and!; by simplify_map_eq.
Qed.

(** X6.  Serialization loses nothing: two requests with the same payload
    are the same request. *)
Theorem to_dict_inj (request request' : SplitBotRequest.t) :
  SplitBotRequest.to_dict request = SplitBotRequest.to_dict request' →
  request = request'.
Proof.
  intros Heq.
  pose proof (to_dict_lookups request) as (Hm & Hg & Hs & Hi).
  pose proof (to_dict_lookups request') as (Hm' & Hg' & Hs' & Hi').
  rewrite Heq in Hm, Hg, Hs, Hi.
  rewrite Hm in Hm'. rewrite Hg in Hg'. rewrite Hs in Hs'. rewrite Hi in Hi'.
  destruct request as [m g s i], request' as [m' g' s' i']. cbn in *.
  f_equal; [congruence|congruence| |].
  - destruct s, s'; cbn in *; congruence.
  - destruct i, i'; cbn in *; congruence.
Qed.

(** * Further properties of the handlers *)

Lemma exit_path_no_post lp rp pm r1 tail r url body answer :
  exit_path lp rp pm r1 tail r → Post url body answer ∉ tail.
Proof.
  intros Hexit Hin.
  assert ((url, body) ∈ outbound_calls tail) as Hcall
    by (apply elem_of_outbound_calls; eauto).
  rewrite (exit_path_calls _ _ _ Hexit) in Hcall. by apply elem_of_nil in Hcall.
Qed.

(** With every chat call returning, what follows the attempt is one
    deletion and one reply: the attempt's result, or the error text. *)
Lemma exit_path_returned lp rp pm r1 tail r :
  exit_path lp rp pm r1 tail r →
  Forall returned (messaging tail) →
  r = Ok tt
  ∧ ∃ id,
      messaging tail
      = [Delete pm (Ok tt);
         ReplyText (match r1 with
                    | Ok ai_response => ai_response
                    | Raise e => VStr (rp +:+ str e)
                    end) (Ok id)].
Proof.
  destruct 1 as [ai id|r1 pre e tail r Hcaught Hrec].
  - intros _. split; [done|]. by exists id.
  - rewrite messaging_app.
    destruct Hcaught, Hrec; intros Hall; cbn in Hall;
      rewrite ?Forall_cons in Hall; cbn in Hall;
      first [by split; [|eexists] | by decompose [and ex] Hall].
Qed.

Lemma image_attempt_calls message file_id sender h :
  length (outbound_calls
            (events (image_attempt py_str w message file_id sender) h)) ≤ 1.
Proof.
  unfold events. rewrite image_attempt_run. cbn zeta.
  destruct (resolution_failure _); [cbn; lia|].
  destruct (get_file w _ file_id) as [file|e]; [|cbn; lia].
  pose proof (process_message_calls {|
    SplitBotRequest.message := "";
    SplitBotRequest.group_id := pretty (Chat.id (Message.chat message));
    SplitBotRequest.sender := sender;
    SplitBotRequest.image_url := File.file_path file |}
    (h ++ [Log INFO ("Fetching file path for - " +:+ file_id);
           GetFile file_id (Ok file)])) as Hcalls.
  unfold events in Hcalls. destruct (process_message _ _) as [evs r].
  cbn [fst] in *.
  change (?x :: ?y :: evs) with ([x; y] ++ evs).
  rewrite outbound_calls_app, Hcalls.
  destruct (getenv w "SPLIT_BOT_URL") as [[|c base]|]; cbn; lia.
Qed.

Lemma image_attempt_posted message file_id sender h url body response :
  Post url body (Ok response)
    ∈ events (image_attempt py_str w message file_id sender) h →
  outcome (image_attempt py_str w message file_id sender) h =
  match Response.json response with
  | Raise e => Raise e
  | Ok data => validated response data
  end.
Proof.
  unfold events, outcome. rewrite image_attempt_run. cbn zeta.
  destruct (resolution_failure _); [intros Hin; only_post Hin|].
  destruct (get_file w _ file_id) as [file|e]; [|intros Hin; only_post Hin].
  pose proof (process_message_posted {|
    SplitBotRequest.message := "";
    SplitBotRequest.group_id := pretty (Chat.id (Message.chat message));
    SplitBotRequest.sender := sender;
    SplitBotRequest.image_url := File.file_path file |}
    (h ++ [Log INFO ("Fetching file path for - " +:+ file_id);
           GetFile file_id (Ok file)]) url body response) as Hposted.
  unfold events, outcome in Hposted. destruct (process_message _ _) as [evs r].
  cbn [fst snd] in *. intros Hin.
  apply elem_of_cons in Hin as [?|Hin]; [done|].
  apply elem_of_cons in Hin as [?|Hin]; [done|]. auto.
Qed.

(** A run of the guarded shape, read as a whole. *)
Lemma run_path_summary lp rp from_user first h evs r :
  run_path w lp rp from_user first h evs r →
  (evs = [] ∧ from_user = None)
  ∨ (∃ e, evs = [ReplyText NOTICE (Raise e)])
  ∨ ∃ author pm tail,
      from_user = Some author
      ∧ let attempt := first (User.username author) in
        let h1 := h ++ [ReplyText NOTICE (Ok pm)] in
        evs = ReplyText NOTICE (Ok pm) :: events attempt h1 ++ tail
        ∧ exit_path lp rp pm (outcome attempt h1) tail r.
Proof.
  destruct 1 as [|author e|author pm tail r ? ? h1 attempt Hexit]; eauto.
  right; right. by exists author, pm, tail.
Qed.

(** X7.  The image handler ignores an event without a message, or whose
    message carries neither a photo nor a document: no event at all.  A
    message that carries one is never ignored, whatever its text: no
    mention of the bot is needed. *)
Theorem handle_image_needs_file update h :
  ((∀ message, Update.message update = Some message →
      Message.photo message = [] ∧ Message.document message = None) →
   handle_image update h = ([], Ok tt))
  ∧ (∀ message, Update.message update = Some message →
       Message.photo message ≠ [] ∨ Message.document message ≠ None →
       (Message.from_user message = None
        ∧ handle_image update h =
            ([], Raise (AttributeError
                   "'NoneType' object has no attribute 'username'")))
       ∨ ∃ answer rest,
           events (handle_image update) h = ReplyText NOTICE answer :: rest).
Proof.
  split.
  - intros Hnone. apply handle_image_ignored. intros message Hmessage.
    destruct (Hnone message Hmessage) as [Hphoto Hdoc].
    unfold selected_file_id. by rewrite Hphoto, Hdoc.
  - intros message Hmessage Hfile.
    assert (∃ file_id, selected_file_id message = Some file_id)
      as [file_id Hsel].
    { unfold selected_file_id.
      destruct (last (Message.photo message)) as [photo|] eqn:Hlast;
        [by eauto|].
      apply last_None in Hlast.
      destruct Hfile as [?|Hdoc]; [done|].
      destruct (Message.document message); [by eauto|done]. }
    pose proof (handle_image_paths _ _ _ h Hmessage Hsel) as Hpath.
    unfold events, outcome in *.
    destruct (handle_image update h) as [evs r]. cbn [fst snd] in *.
    inversion Hpath; simplify_eq; eauto.
Qed.

(** X8.  The text handler never asks for a file.  The image handler asks
    for at most one per run: the last listed size of the photo when there
    is a photo, the document otherwise. *)
Theorem handlers_fetch_selected_file update h :
  fetched (events (handle_message update) h) = []
  ∧ (fetched (events (handle_image update) h) = []
     ∨ ∃ message file_id,
         Update.message update = Some message
         ∧ fetched (events (handle_image update) h) = [file_id]
         ∧ match last (Message.photo message) with
           | Some photo => file_id = PhotoSize.file_id photo
           | None => ∃ document,
               Message.document message = Some document
               ∧ file_id = Document.file_id document
           end).
Proof.
  split.
  - destruct (handle_message_cases update h)
      as [Hignored|(message & text & Hmessage & Htext & Hin)].
    { unfold events. by rewrite Hignored. }
    destruct (run_path_summary _ _ _ _ _ _ _
                (handle_message_paths _ _ _ h Hmessage Htext Hin))
      as [[-> _]|[[e ->]|(author & pm & tail & _ & -> & Hexit)]];
      [done..|].
    change (?x :: ?l ++ ?t) with ([x] ++ l ++ t).
    rewrite !fetched_app, (exit_path_fetched _ _ _ _ _ _ Hexit).
    unfold message_attempt. by rewrite process_message_fetched.
  - destruct (handle_image_cases update h)
      as [Hignored|(message & file_id & Hmessage & Hsel)].
    { left. unfold events. by rewrite Hignored. }
    destruct (run_path_summary _ _ _ _ _ _ _
                (handle_image_paths _ _ _ h Hmessage Hsel))
      as [[-> _]|[[e ->]|(author & pm & tail & _ & -> & Hexit)]];
      [by left..|].
    right. exists message, file_id. split_and!; [done| |].
    + change (?x :: ?l ++ ?t) with ([x] ++ l ++ t).
      rewrite !fetched_app, (exit_path_fetched _ _ _ _ _ _ Hexit).
      by rewrite image_attempt_fetched.
    + unfold selected_file_id in Hsel.
      destruct (last (Message.photo message)); [by simplify_eq|].
      destruct (Message.document message) as [document|]; [|done].
      exists document. cbn in Hsel. split; congruence.
Qed.

(** X9.  In every world, whatever fails, a handler run makes at most one
    outbound call: nothing is retried. *)
Theorem handlers_never_retry update h :
  length (outbound_calls (events (handle_message update) h)) ≤ 1
  ∧ length (outbound_calls (events (handle_image update) h)) ≤ 1.
Proof.
  split.
  - destruct (handle_message_cases update h)
      as [Hignored|(message & text & Hmessage & Htext & Hin)].
    { unfold events. rewrite Hignored. cbn; lia. }
    destruct (run_path_summary _ _ _ _ _ _ _
                (handle_message_paths _ _ _ h Hmessage Htext Hin))
      as [[-> _]|[[e ->]|(author & pm & tail & _ & -> & Hexit)]];
      [cbn; lia..|].
    change (?x :: ?l ++ ?t) with ([x] ++ l ++ t).
    rewrite !outbound_calls_app, (exit_path_calls _ _ _ Hexit).
    rewrite (right_id_L [] (++)). unfold message_attempt.
    rewrite process_message_calls.
    destruct (getenv w "SPLIT_BOT_URL") as [[|c base]|]; cbn; lia.
  - destruct (handle_image_cases update h)
      as [Hignored|(message & file_id & Hmessage & Hsel)].
    { unfold events. rewrite Hignored. cbn; lia. }
    destruct (run_path_summary _ _ _ _ _ _ _
                (handle_image_paths _ _ _ h Hmessage Hsel))
      as [[-> _]|[[e ->]|(author & pm & tail & _ & -> & Hexit)]];
      [cbn; lia..|].
    change (?x :: ?l ++ ?t) with ([x] ++ l ++ t).
    rewrite !outbound_calls_app, (exit_path_calls _ _ _ Hexit).
    rewrite (right_id_L [] (++)).
    cbn [outbound_calls omap list_omap app].
    apply image_attempt_calls.
Qed.

(** A run in which the backend answered and every chat call returned:
    the chat sees the notice, its deletion, and one reply, the client's
    result or the text of its failure. *)
Lemma run_path_answered lp rp from_user first h evs r url body response :
  run_path w lp rp from_user first h evs r →
  (∀ sender h', messaging (events (first sender) h') = []) →
  (∀ sender h', Post url body (Ok response) ∈ events (first sender) h' →
     outcome (first sender) h' =
     match Response.json response with
     | Raise e => Raise e
     | Ok data => validated response data
     end) →
  Post url body (Ok response) ∈ evs →
  Forall returned (messaging evs) →
  r = Ok tt
  ∧ ∃ pm id,
      messaging evs
      = [ReplyText NOTICE (Ok pm); Delete pm (Ok tt);
         ReplyText
           (match (match Response.json response with
                   | Raise e => Raise e
                   | Ok data => validated response data
                   end) with
            | Ok ai_response => ai_response
            | Raise e => VStr (rp +:+ str e)
            end) (Ok id)].
Proof.
  intros Hpath Hquiet Hposted Hin Hall.
  destruct (run_path_summary _ _ _ _ _ _ _ Hpath)
    as [[-> _]|[[e ->]|(author & pm & tail & _ & -> & Hexit)]];
    [only_post Hin..|].
  apply elem_of_cons in Hin as [?|Hin]; [done|].
  apply elem_of_app in Hin as [Hin|Hin];
    [|by apply exit_path_no_post with (1 := Hexit) in Hin].
  rewrite (Hposted _ _ Hin) in Hexit.
  change (?x :: ?l ++ ?t) with ([x] ++ l ++ t) in Hall |- *.
  rewrite !messaging_app, Hquiet in Hall |- *. cbn [messaging List.filter
    is_messaging app] in Hall |- *.
  apply Forall_cons in Hall as [_ Hall].
  destruct (exit_path_returned _ _ _ _ _ _ Hexit Hall) as [-> [id ->]].
  split; [done|]. by exists pm, id.
Qed.

Lemma handler_answered (handler : Update.t → M unit) what update h
    url body response :
  (handler = handle_message ∧ what = "message")
  ∨ (handler = handle_image ∧ what = "image") →
  Post url body (Ok response) ∈ events (handler update) h →
  Forall returned (messaging (events (handler update) h)) →
  outcome (handler update) h = Ok tt
  ∧ ∃ pm id,
      messaging (events (handler update) h)
      = [ReplyText NOTICE (Ok pm); Delete pm (Ok tt);
         ReplyText
           (match (match Response.json response with
                   | Raise e => Raise e
                   | Ok data => validated response data
                   end) with
            | Ok ai_response => ai_response
            | Raise e => VStr ("Error processing " +:+ what +:+ ": " +:+ str e)
            end) (Ok id)].
Proof.
  intros [[-> ->]|[-> ->]] Hin Hall.
  - destruct (handle_message_cases update h)
      as [Hignored|(message & text & Hmessage & Htext & Hmention)].
    { unfold events in Hin. rewrite Hignored in Hin. only_post Hin. }
    eapply (run_path_answered _ "Error processing message: ");
      [by apply handle_message_paths| | |done..].
    + intros sender h'. apply process_message_quiet.
    + intros sender h'. apply process_message_posted.
  - destruct (handle_image_cases update h)
      as [Hignored|(message & file_id & Hmessage & Hsel)].
    { unfold events in Hin. rewrite Hignored in Hin. only_post Hin. }
    eapply (run_path_answered _ "Error processing image: ");
      [by apply handle_image_paths| | |done..].
    + intros sender h'. apply image_attempt_quiet.
    + intros sender h'. apply image_attempt_posted.
Qed.

(** X10.  When the backend answers 200 with an object whose [error] is
    missing or falsy, and the chat calls return, the chat sees exactly the
    notice, its deletion and one reply, and that reply is the [response]
    field of the answer, or the empty string when there is none. *)
Theorem answer_is_relayed (handler : Update.t → M unit) update h
    url body response d :
  handler = handle_message ∨ handler = handle_image →
  Post url body (Ok response) ∈ events (handler update) h →
  Response.status_code response = 200%Z →
  Response.json response = Ok (VDict d) →
  truthy (default VNone (d !! "error")) = false →
  Forall returned (messaging (events (handler update) h)) →
  outcome (handler update) h = Ok tt
  ∧ ∃ pm id,
      messaging (events (handler update) h)
      = [ReplyText NOTICE (Ok pm); Delete pm (Ok tt);
         ReplyText (default (VStr "") (d !! "response")) (Ok id)].
Proof.
  intros Hhandler Hin Hstatus Hjson Herror Hall.
  assert (∃ what, (handler = handle_message ∧ what = "message")
                  ∨ (handler = handle_image ∧ what = "image"))
    as [what Hwhat] by (destruct Hhandler; eauto).
  destruct (handler_answered _ _ _ _ _ _ _ Hwhat Hin Hall)
    as [Hout (pm & id & Hevs)].
  split; [done|]. exists pm, id.
  rewrite Hevs, Hjson, (validated_error _ _ Hstatus). cbn zeta.
  by rewrite Herror.
Qed.

(** X11.  When the backend answers with a status other than 200 and a JSON
    body, and the chat calls return, the one reply is
    "Error processing {message|image}: Request failed with status code "
    followed by the status: the body's [response] field is not shown. *)
Theorem failed_status_is_reported (handler : Update.t → M unit) what update h
    url body response data :
  (handler = handle_message ∧ what = "message")
  ∨ (handler = handle_image ∧ what = "image") →
  Post url body (Ok response) ∈ events (handler update) h →
  Response.status_code response ≠ 200%Z →
  Response.json response = Ok data →
  Forall returned (messaging (events (handler update) h)) →
  outcome (handler update) h = Ok tt
  ∧ ∃ pm id,
      messaging (events (handler update) h)
      = [ReplyText NOTICE (Ok pm); Delete pm (Ok tt);
         ReplyText
           (VStr ("Error processing " +:+ what
                  +:+ ": Request failed with status code "
                  +:+ pretty (Response.status_code response))) (Ok id)].
Proof.
  intros Hwhat Hin Hstatus Hjson Hall.
  destruct (handler_answered _ _ _ _ _ _ _ Hwhat Hin Hall)
    as [Hout (pm & id & Hevs)].
  split; [done|]. exists pm, id. rewrite Hevs, Hjson. unfold validated.
  apply Z.eqb_neq in Hstatus as ->. cbn [negb str].
  by destruct Hwhat as [[_ ->]|[_ ->]].
Qed.

(** X12.  The [group_id] a handler sends is the decimal rendering of the
    chat's id, so it identifies the chat: two payloads with the same
    [group_id] come from the same chat. *)
Theorem group_id_identifies_chat update update' h h' url url' payload payload'
    message message' :
  (url, payload) ∈ outbound_calls (events (handle_message update) h)
  ∨ (url, payload) ∈ outbound_calls (events (handle_image update) h) →
  (url', payload') ∈ outbound_calls (events (handle_message update') h')
  ∨ (url', payload') ∈ outbound_calls (events (handle_image update') h') →
  Update.message update = Some message →
  Update.message update' = Some message' →
  payload !! "group_id" = Some (VStr (pretty (Chat.id (Message.chat message))))
  ∧ (payload !! "group_id" = payload' !! "group_id" →
     Chat.id (Message.chat message) = Chat.id (Message.chat message')).
Proof.
  assert (∀ update h url payload message,
    (url, payload) ∈ outbound_calls (events (handle_message update) h)
    ∨ (url, payload) ∈ outbound_calls (events (handle_image update) h) →
    Update.message update = Some message →
    payload !! "group_id"
    = Some (VStr (pretty (Chat.id (Message.chat message))))) as Hgroup.
  { clear. intros update h url payload message [Hcall|Hcall] Hmessage.
    - destruct (handle_message_calls _ _ _ _ Hcall)
        as (message0 & text & author & ? & _ & _ & ->).
      simplify_eq. apply to_dict_lookups.
    - destruct (handle_image_calls _ _ _ _ Hcall)
        as (message0 & author & image & ? & _ & ->).
      simplify_eq. apply to_dict_lookups. }
  intros Hcall Hcall' Hmessage Hmessage'.
  pose proof (Hgroup _ _ _ _ _ Hcall Hmessage) as Hg.
  pose proof (Hgroup _ _ _ _ _ Hcall' Hmessage') as Hg'.
  split; [done|]. rewrite Hg, Hg'. intros [= Heq].
  by apply (inj pretty) in Heq.
Qed.

End properties.

(** * Start-up *)

Section startup_properties.

Variable py_int : string → option Z.
Variable host : host.

Abbreviation ENV := (ENV host).
Abbreviation IS_DEV := (IS_DEV host).
Abbreviation IS_PROD := (IS_PROD host).
Abbreviation module_body := (module_body host).
Abbreviation setup_application := (setup_application host).
Abbreviation setup_prod_webhook := (setup_prod_webhook py_int host).
Abbreviation setup_non_prod_polling := (setup_non_prod_polling host).
Abbreviation main := (main py_int host).
Abbreviation program := (program py_int host).
Abbreviation webhook_configuration := (webhook_configuration py_int host).

Lemma setup_application_run :
  setup_application =
  match environ host "TELEGRAM_BOT_TOKEN" with
  | None | Some "" =>
      ([Logged ERROR "No TELEGRAM_BOT_TOKEN found in environment variables.";
        Printed
          "Error: TELEGRAM_BOT_TOKEN not found. Please set it in .env file."],
       Raise (ValueError
                "TELEGRAM_BOT_TOKEN not found in environment variables"))
  | Some token => ([], Ok (built token))
  end.
Proof.
  unfold setup_application.
  by destruct (environ host "TELEGRAM_BOT_TOKEN") as [[|c token]|].
Qed.

Lemma append_assoc s t u : (s +:+ t) +:+ u = s +:+ t +:+ u.
Proof. induction s as [|c s IH]; [done|]. by rewrite !append_cons, IH. Qed.

Lemma webhook_configuration_spec base n :
  webhook_configuration = Some (base, n) ↔
  ∃ port,
    environ host "BOT_WEBHOOK" = Some base ∧ base ≠ ""
    ∧ environ host "PORT" = Some port ∧ port ≠ ""
    ∧ py_int port = Some n.
Proof.
  unfold webhook_configuration. split.
  - destruct (environ host "BOT_WEBHOOK") as [[|c base']|]; [done| |done].
    destruct (environ host "PORT") as [[|d port]|]; [done| |done].
    cbn [mbind option_bind]. destruct (py_int _) as [n'|] eqn:Hint; [|done].
    intros [= <- <-]. by exists (String d port).
  - intros (port & -> & Hbase & -> & Hport & Hint).
    destruct base; [done|]. destruct port; [done|].
    cbn [mbind option_bind]. by rewrite Hint.
Qed.

Lemma setup_prod_webhook_starts application base n :
  webhook_configuration = Some (base, n) →
  setup_prod_webhook application =
  let r := run_webhook host application "0.0.0.0" n "/webhook"
             (base +:+ "/webhook") ALL_TYPES in
  ([Logged INFO ("Starting bot in production mode with webhook: "
                 +:+ (base +:+ "/webhook") +:+ " on port " +:+ pretty n);
    RunWebhook application "0.0.0.0" n "/webhook" (base +:+ "/webhook")
      ALL_TYPES r], r).
Proof.
  intros (port & Hbase & ? & Hport & ? & Hint)%webhook_configuration_spec.
  unfold setup_prod_webhook. rewrite Hbase, Hport.
  destruct base; [done|]. destruct port; [done|]. by rewrite Hint.
Qed.

Lemma setup_prod_webhook_rejects application :
  webhook_configuration = None →
  ∃ message,
    setup_prod_webhook application
    = ([Logged ERROR (message +:+ ".")], Raise (ValueError message)).
Proof.
  unfold setup_prod_webhook, webhook_configuration.
  destruct (environ host "BOT_WEBHOOK") as [[|c base]|].
  1, 3: by exists
    "BOT_WEBHOOK not found in environment variables for production mode".
  destruct (environ host "PORT") as [[|d port]|].
  1, 3: by exists "PORT not found in environment variables for production mode".
  cbn [mbind option_bind]. destruct (py_int _); [done|]. intros _.
  exists ("Invalid PORT value: " +:+ String d port +:+ ". Must be an integer").
  cbv [mbind Boot_bind boot_bind tell fail]. cbn [app].
  do 3 f_equal. by rewrite !append_assoc.
Qed.

Lemma main_run :
  main =
  match environ host "TELEGRAM_BOT_TOKEN" with
  | None | Some "" =>
      ([Logged ERROR "No TELEGRAM_BOT_TOKEN found in environment variables.";
        Printed
          "Error: TELEGRAM_BOT_TOKEN not found. Please set it in .env file.";
        Logged ERROR
          "Configuration error: TELEGRAM_BOT_TOKEN not found in environment variables"],
       Ok tt)
  | Some token =>
      except_ValueError
        (if IS_PROD then setup_prod_webhook (built token)
         else setup_non_prod_polling (built token))
        (λ e, tell (Logged ERROR ("Configuration error: " +:+ str e)))
  end.
Proof.
  unfold main. rewrite setup_application_run.
  destruct (environ host "TELEGRAM_BOT_TOKEN") as [[|c token]|]; [done| |done].
  cbv [mbind Boot_bind boot_bind]. cbn [app].
  by destruct (if IS_PROD then _ else _).
Qed.

(** ** The mode *)

(** X13.  The two mode flags are never both set; without [ENV] the mode is
    development; and an [ENV] that is set but empty is neither mode. *)
Theorem modes_exclusive :
  IS_DEV && IS_PROD = false
  ∧ (environ host "ENV" = None → IS_DEV = true)
  ∧ (environ host "ENV" = Some "" → IS_DEV = false ∧ IS_PROD = false).
Proof.
  unfold IS_DEV, IS_PROD, ENV. split_and!.
  - repeat case_bool_decide; try done.
    repeat match goal with H : _ ∈ _ :: _ |- _ => only_post H end; congruence.
  - by intros ->.
  - by intros ->.
Qed.

(** ** The webhook *)

(** X14.  On an incomplete webhook configuration the server is not started:
    the set-up raises a ValueError and logs one ERROR line, the error's
    message followed by a full stop.  The base URL is checked first, then
    the port's presence, then its being an integer. *)
Theorem webhook_configuration_checked application :
  (webhook_configuration = None →
   ∃ message,
     setup_prod_webhook application
     = ([Logged ERROR (message +:+ ".")], Raise (ValueError message)))
  ∧ (environ host "BOT_WEBHOOK" = None ∨ environ host "BOT_WEBHOOK" = Some "" →
     outcome_of (setup_prod_webhook application)
     = Raise (ValueError
         "BOT_WEBHOOK not found in environment variables for production mode"))
  ∧ (∀ base, environ host "BOT_WEBHOOK" = Some base → base ≠ "" →
     environ host "PORT" = None ∨ environ host "PORT" = Some "" →
     outcome_of (setup_prod_webhook application)
     = Raise (ValueError
         "PORT not found in environment variables for production mode"))
  ∧ (∀ base port, environ host "BOT_WEBHOOK" = Some base → base ≠ "" →
     environ host "PORT" = Some port → port ≠ "" → py_int port = None →
     outcome_of (setup_prod_webhook application)
     = Raise (ValueError
         ("Invalid PORT value: " +:+ port +:+ ". Must be an integer"))).
Proof.
  split_and!.
  - apply setup_prod_webhook_rejects.
  - unfold setup_prod_webhook. by intros [-> | ->].
  - unfold setup_prod_webhook. intros base -> Hbase Hport.
    destruct base; [done|]. by destruct Hport as [-> | ->].
  - unfold setup_prod_webhook. intros base port -> Hbase -> Hport ->.
    destruct base; [done|]. by destruct port.
Qed.

(** X15.  The server is started exactly on a complete configuration: a base
    URL and a port, both set and not empty, the port an integer.  It then
    listens on every interface, on that port, serves the path "/webhook",
    and registers the base URL followed by "/webhook"; the integer is
    passed on as it is. *)
Theorem webhook_started_when_configured application ev :
  ev ∈ transports (events_of (setup_prod_webhook application)) ↔
  ∃ base port n,
    environ host "BOT_WEBHOOK" = Some base ∧ base ≠ ""
    ∧ environ host "PORT" = Some port ∧ port ≠ ""
    ∧ py_int port = Some n
    ∧ ev = RunWebhook application "0.0.0.0" n "/webhook"
             (base +:+ "/webhook") ALL_TYPES
             (run_webhook host application "0.0.0.0" n "/webhook"
                (base +:+ "/webhook") ALL_TYPES).
Proof.
  destruct webhook_configuration as [[base n]|] eqn:Hconf.
  - rewrite (setup_prod_webhook_starts _ _ _ Hconf). cbn.
    apply webhook_configuration_spec in Hconf
      as (port & Hbase & ? & Hport & ? & Hint).
    rewrite list_elem_of_singleton. split.
    + intros ->. by exists base, port, n.
    + intros (base' & port' & n' & ? & _ & ? & _ & ? & ->). by simplify_eq.
  - destruct (setup_prod_webhook_rejects application Hconf) as [message ->].
    cbn. split; [by intros ?%elem_of_nil|].
    intros (base & port & n & Hbase & ? & Hport & ? & Hint & _).
    assert (webhook_configuration = Some (base, n)) as Hsome
      by (apply webhook_configuration_spec; by exists port).
    congruence.
Qed.

(** ** main *)

(** X16.  [main] ends as its transport does.  When the transport returns,
    [main] returns, that call being its last event.  When the transport
    raises a ValueError, [main] logs "Configuration error: " and its text
    and returns.  When it raises anything else, [main] fails with that
    exception, the call being its last event and nothing being logged; this
    is the only way [main] fails, so no ValueError leaves it.  When no
    transport is started, the set-up raised a ValueError, for the token or
    for the webhook configuration: [main] logs "Configuration error: " and
    that error's message last, and returns. *)
Theorem main_outcomes :
  (∀ ev, ev ∈ transports (events_of main) →
     match transport_result ev with
     | Some (Ok _) =>
         outcome_of main = Ok tt ∧ last (events_of main) = Some ev
     | Some (Raise e) =>
         if is_ValueError e
         then outcome_of main = Ok tt
              ∧ ∃ before,
                  events_of main
                  = before ++ [ev; Logged ERROR
                                     ("Configuration error: " +:+ str e)]
         else outcome_of main = Raise e ∧ last (events_of main) = Some ev
     | None => False
     end)
  ∧ (∀ e, outcome_of main = Raise e →
       is_ValueError e = false
       ∧ ∃ ev, ev ∈ transports (events_of main)
               ∧ transport_result ev = Some (Raise e))
  ∧ (transports (events_of main) = [] →
     outcome_of main = Ok tt
     ∧ ∃ message,
         last (events_of main)
         = Some (Logged ERROR ("Configuration error: " +:+ message))
         ∧ (outcome_of setup_application = Raise (ValueError message)
            ∨ ∃ application,
                outcome_of setup_application = Ok application
                ∧ IS_PROD = true
                ∧ outcome_of (setup_prod_webhook application)
                  = Raise (ValueError message))).
Proof.
  rewrite main_run, setup_application_run.
  destruct (environ host "TELEGRAM_BOT_TOKEN") as [[|c token]|].
  1, 3: split_and!;
    [intros ev Hin; cbn in Hin; by apply elem_of_nil in Hin
    |intros e Hout; by cbn in Hout
    |intros _; split; [done|];
     exists "TELEGRAM_BOT_TOKEN not found in environment variables";
     split; [done|]; by left].
  destruct IS_PROD eqn:Hprod.
  - destruct webhook_configuration as [[base n]|] eqn:Hconf.
    + rewrite (setup_prod_webhook_starts _ _ _ Hconf). cbn zeta.
      destruct (run_webhook host _ _ _ _ _ _) as [[]|e] eqn:Hrun.
      * split_and!;
          [|intros e Hout; by cbn in Hout|intros Hnone; by cbn in Hnone].
        intros ev Hin. cbn in Hin. apply list_elem_of_singleton in Hin as ->.
        by cbn.
      * unfold except_ValueError. destruct (is_ValueError e) eqn:He.
        -- split_and!;
             [|intros e' Hout; by cbn in Hout|intros Hnone; by cbn in Hnone].
           intros ev Hin. cbn in Hin. apply list_elem_of_singleton in Hin as ->.
           cbn [transport_result]. rewrite He. split; [done|].
           by eexists [_].
        -- split_and!; [| |intros Hnone; by cbn in Hnone].
           ++ intros ev Hin. cbn in Hin.
              apply list_elem_of_singleton in Hin as ->.
              cbn [transport_result]. by rewrite He.
           ++ intros e' Hout. cbn in Hout. injection Hout as <-.
              split; [done|]. eexists. split; [cbn; in_list|done].
    + destruct (setup_prod_webhook_rejects (built (String c token)) Hconf)
        as [message Hrejects].
      rewrite Hrejects.
      split_and!;
        [intros ev Hin; cbn in Hin; by apply elem_of_nil in Hin
        |intros e Hout; by cbn in Hout|].
      intros _. split; [done|]. exists message. split; [done|].
      right. exists (built (String c token)). by rewrite Hrejects.
  - unfold setup_non_prod_polling.
    cbv [mbind Boot_bind boot_bind tell]. cbn [app].
    destruct (run_polling host _ _) as [[]|e] eqn:Hrun.
    + split_and!;
        [|intros e Hout; by cbn in Hout|intros Hnone; by cbn in Hnone].
      intros ev Hin. cbn in Hin. apply list_elem_of_singleton in Hin as ->.
      by cbn.
    + unfold except_ValueError. destruct (is_ValueError e) eqn:He.
      * split_and!;
          [|intros e' Hout; by cbn in Hout|intros Hnone; by cbn in Hnone].
        intros ev Hin. cbn in Hin. apply list_elem_of_singleton in Hin as ->.
        cbn [transport_result]. rewrite He. split; [done|].
        by eexists [_].
      * split_and!; [| |intros Hnone; by cbn in Hnone].
        -- intros ev Hin. cbn in Hin.
           apply list_elem_of_singleton in Hin as ->.
           cbn [transport_result]. by rewrite He.
        -- intros e' Hout. cbn in Hout. injection Hout as <-.
           split; [done|]. eexists. split; [cbn; in_list|done].
Qed.

(** X17.  Without a token, unset or empty, [main] starts no transport: it
    logs the missing token, prints the hint, logs the configuration error,
    and returns normally. *)
Theorem main_without_token :
  environ host "TELEGRAM_BOT_TOKEN" = None
  ∨ environ host "TELEGRAM_BOT_TOKEN" = Some "" →
  main =
  ([Logged ERROR "No TELEGRAM_BOT_TOKEN found in environment variables.";
    Printed "Error: TELEGRAM_BOT_TOKEN not found. Please set it in .env file.";
    Logged ERROR
      "Configuration error: TELEGRAM_BOT_TOKEN not found in environment variables"],
   Ok tt).
Proof. intros [Htoken|Htoken]; by rewrite main_run, Htoken. Qed.

(** X18.  With a token, [main] starts at most one transport, on the
    application built from that token, whose handlers are the image handler
    on photos and image documents, then the text handler on texts that are
    not commands.  Outside production mode, also under an [ENV] that names
    no mode, that transport is polling, and it is always started; in
    production mode it can only be the webhook. *)
Theorem main_transport token :
  environ host "TELEGRAM_BOT_TOKEN" = Some token → token ≠ "" →
  length (transports (events_of main)) ≤ 1
  ∧ (IS_PROD = false →
     transports (events_of main)
     = [RunPolling (built token) ALL_TYPES
          (run_polling host (built token) ALL_TYPES)])
  ∧ (IS_PROD = true →
     ∀ ev, ev ∈ transports (events_of main) →
       ∃ port url r,
         ev = RunWebhook (built token) "0.0.0.0" port "/webhook" url
                ALL_TYPES r).
Proof.
  intros Htoken Hne. rewrite main_run, Htoken.
  destruct token as [|c token]; [done|].
  destruct IS_PROD.
  - assert (∃ evs, transports (events_of (except_ValueError
        (setup_prod_webhook (built (String c token)))
        (λ e, tell (Logged ERROR ("Configuration error: " +:+ str e)))))
        = evs
      ∧ length evs ≤ 1
      ∧ ∀ ev, ev ∈ evs → ∃ port url r,
          ev = RunWebhook (built (String c token)) "0.0.0.0" port "/webhook"
                 url ALL_TYPES r) as (evs & -> & Hlen & Hall).
    { destruct webhook_configuration as [[base n]|] eqn:Hconf.
      - rewrite (setup_prod_webhook_starts _ _ _ Hconf). cbn zeta.
        eexists. split; [done|].
        destruct (run_webhook host _ _ _ _ _ _) as [[]|e]; cbn.
        + split; [lia|]. intros ev ->%list_elem_of_singleton. by eexists _, _, _.
        + destruct (is_ValueError e); cbn.
          all: split; [lia|];
            intros ev ->%list_elem_of_singleton; by eexists _, _, _.
      - destruct (setup_prod_webhook_rejects (built (String c token)) Hconf)
          as [message ->].
        eexists. split; [done|]. cbn. split; [lia|].
        by intros ev ?%elem_of_nil. }
    split_and!; [done|done|]. by intros _.
  - unfold setup_non_prod_polling.
    cbv [mbind Boot_bind boot_bind tell]. cbn [app].
    destruct (run_polling host _ _) as [[]|e] eqn:Hrun.
    + cbn. split_and!; [lia|done|done].
    + unfold except_ValueError. destruct (is_ValueError e); cbn.
      all: split_and!; [lia|done|done].
Qed.

(** X19.  A missing or empty [BOT_NAME] ends the program while the module
    is loading: the ValueError is raised before logging is configured and
    outside [main], so nothing is logged and nothing catches it.  With a
    name, logging is configured first, at DEBUG in development mode and at
    INFO otherwise, and the program continues as [main]. *)
Theorem program_needs_bot_name :
  (environ host "BOT_NAME" = None ∨ environ host "BOT_NAME" = Some "" →
   program
   = ([], Raise (ValueError "BOT_NAME not found in environment variables")))
  ∧ (∀ name, environ host "BOT_NAME" = Some name → name ≠ "" →
     program
     = (Configured (if IS_DEV then LEVEL_DEBUG else LEVEL_INFO)
          :: events_of main,
        outcome_of main)).
Proof.
  unfold program, module_body. split.
  - by intros [-> | ->].
  - intros name -> Hname. destruct name; [done|].
    cbv [mbind Boot_bind boot_bind tell mret Boot_ret]. cbn [app].
    unfold events_of, outcome_of. by destruct main.
Qed.

End startup_properties.

(** * Examples *)

Local Open Scope Z_scope.

Example question_answered :
  messaging (events (handle_message str_scalar (served (Ok owed)) "SplitBot"
                       question) [])
  = [ReplyText NOTICE (Ok 0); Delete 0 (Ok tt);
     ReplyText (VStr "You owe $12") (Ok 7)].
Proof. vm_compute. reflexivity. Qed.

(** The scenario of the 500: the reply carries the status, not the answer. *)
Example question_refused :
  messaging (events (handle_message str_scalar
                       (served (Ok {| Response.status_code := 500;
                                      Response.json := Response.json owed |}))
                       "SplitBot" question) [])
  = [ReplyText NOTICE (Ok 0); Delete 0 (Ok tt);
     ReplyText
       (VStr "Error processing message: Request failed with status code 500")
       (Ok 8)].
Proof. vm_compute. reflexivity. Qed.

(** ** C1 *)

(** As stated, C1 fails on a response that is not JSON: with status 502 the
    call ends with the decoder's error, not with the request-failure error
    carrying 502. *)
Lemma validation_counterexample :
  Response.status_code bad_gateway ≠ 200
  ∧ outcome (process_message str_scalar (served (Ok bad_gateway)) asked) []
    = Raise (JSONDecodeError "Expecting value: line 1 column 1 (char 0)")
  ∧ outcome (process_message str_scalar (served (Ok bad_gateway)) asked) []
    ≠ Raise (ValueError "Request failed with status code 502").
Proof. split_and!; [done|by vm_compute|by vm_compute]. Qed.

Lemma process_message_validation_witness :
  outcome (process_message str_scalar (served (Ok owed)) asked) []
  = Ok (VStr "You owe $12").
Proof.
  pose proof (process_message_validation str_scalar (served (Ok owed))
                asked [] "https://ai.example/process_message"
                (SplitBotRequest.to_dict asked) owed
                (VDict (<["response" := VStr "You owe $12"]>
                          (<["error" := VNone]> ∅)))) as Hvalid.
  destruct Hvalid as [_ Hvalid].
  - vm_compute. in_list.
  - reflexivity.
  - destruct (Hvalid eq_refl _ eq_refl) as [_ Hok].
    rewrite Hok; [reflexivity|]. right; left. reflexivity.
Defined.

(** ** C10 *)

Lemma process_message_decodes_first_witness :
  outcome (process_message str_scalar (served (Ok bad_gateway)) asked) []
  = Raise (JSONDecodeError "Expecting value: line 1 column 1 (char 0)").
Proof.
  apply (process_message_decodes_first str_scalar (served (Ok bad_gateway))
           asked [] "https://ai.example/process_message"
           (SplitBotRequest.to_dict asked) bad_gateway).
  - vm_compute. in_list.
  - reflexivity.
Defined.

(** ** C2 *)

Lemma handle_message_needs_mention_witness :
  handle_message str_scalar (served (Ok owed)) "SplitBot" chatter []
  = ([], Ok tt).
Proof.
  apply (handle_message_needs_mention str_scalar (served (Ok owed))
           "SplitBot" chatter []).
  intros message text [= <-] [= <-] Hin.
  apply mentions_spec in Hin. vm_compute in Hin. discriminate.
Defined.

(** ** C3 *)

(** As stated, C3 fails for text events that contain the mention token and
    never reach the backend: with no endpoint configured the client raises
    before any call; when the notice cannot be sent, or the message has no
    author, the handler stops before its try block. *)
Lemma outbound_call_counterexample :
  mentions "SplitBot" "@SplitBot how much do I owe?"
  ∧ outbound_calls (events (handle_message str_scalar unconfigured "SplitBot"
                              question) []) = []
  ∧ outbound_calls (events (handle_message str_scalar kicked "SplitBot"
                              question) []) = []
  ∧ outbound_calls (events (handle_message str_scalar (served (Ok owed))
                              "SplitBot" anonymous_question) []) = [].
Proof.
  split_and!; [by exists "", " how much do I owe?"|by vm_compute..].
Qed.

Lemma handle_message_outbound_call_witness :
  outbound_calls (events (handle_message str_scalar (served (Ok owed))
                            "SplitBot" question) [])
  = [("https://ai.example/process_message", SplitBotRequest.to_dict asked)].
Proof.
  destruct (handle_message_outbound_call str_scalar (served (Ok owed))
              "SplitBot" question
              {| Message.text := Some "@SplitBot how much do I owe?";
                 Message.photo := [];
                 Message.document := None;
                 Message.chat := {| Chat.id := -1001 |};
                 Message.from_user :=
                   Some {| User.username := Some "alice" |} |}
              "@SplitBot how much do I owe?"
              {| User.username := Some "alice" |} 0 "https://ai.example" [])
    as (payload & Hcalls & -> & _).
  - reflexivity.
  - reflexivity.
  - exists "", " how much do I owe?". reflexivity.
  - reflexivity.
  - reflexivity.
  - reflexivity.
  - discriminate.
  - rewrite Hcalls. vm_compute. reflexivity.
Defined.

(** ** C5 *)

(** As stated, C5 fails with no endpoint configured: the photo's file
    resolves, and no call is made.  And the size the handler takes is the
    last listed one: when the largest comes first, the 90x67 one goes
    out. *)
Lemma image_call_counterexample :
  GetFile "full" (Ok {| File.file_path := Some "https://files.example/full" |})
    ∈ events (handle_image str_scalar unconfigured receipt) []
  ∧ outbound_calls (events (handle_image str_scalar unconfigured receipt) [])
    = []
  ∧ (λ call, call.2 !! "image_url")
      <$> outbound_calls (events (handle_image str_scalar (served (Ok owed))
                                    reordered) [])
    = [Some (VStr "https://files.example/thumb")].
Proof. split_and!; [vm_compute; in_list|by vm_compute..]. Qed.

(** An image sent as a file goes out under its own path, and of the two
    sizes of the photo the last is the one asked for. *)
Lemma handle_image_outbound_call_witness :
  (λ call, (call.2 !! "message", call.2 !! "image_url"))
    <$> outbound_calls (events (handle_image str_scalar (served (Ok owed))
                                  scan) [])
  = [(Some (VStr ""), Some (VStr "https://files.example/scan.png"))]
  ∧ fetched (events (handle_image str_scalar (served (Ok owed)) receipt) [])
    = ["full"].
Proof.
  split.
  - destruct (handle_image_outbound_call str_scalar (served (Ok owed)) scan
                {| Message.text := None;
                   Message.photo := [];
                   Message.document :=
                     Some {| Document.file_id := "scan.png" |};
                   Message.chat := {| Chat.id := -1001 |};
                   Message.from_user :=
                     Some {| User.username := Some "alice" |} |}
                "scan.png" {| User.username := Some "alice" |} 0
                {| File.file_path := Some "https://files.example/scan.png" |}
                "https://files.example/scan.png" "https://ai.example" [])
      as [(payload & -> & _ & Hmessage & Himage) _].
    + reflexivity.
    + right. split; [reflexivity|].
      exists {| Document.file_id := "scan.png" |}. split; reflexivity.
    + reflexivity.
    + reflexivity.
    + reflexivity.
    + reflexivity.
    + discriminate.
    + reflexivity.
    + discriminate.
    + cbn [fmap list_fmap snd]. by rewrite Hmessage, Himage.
  - destruct (handle_image_outbound_call str_scalar (served (Ok owed)) receipt
                {| Message.text := None;
                   Message.photo := [
                     {| PhotoSize.file_id := "thumb"; PhotoSize.width := 90;
                        PhotoSize.height := 67 |};
                     {| PhotoSize.file_id := "full"; PhotoSize.width := 1280;
                        PhotoSize.height := 960 |} ];
                   Message.document := None;
                   Message.chat := {| Chat.id := -1001 |};
                   Message.from_user :=
                     Some {| User.username := Some "alice" |} |}
                "full" {| User.username := Some "alice" |} 0
                {| File.file_path := Some "https://files.example/full" |}
                "https://files.example/full" "https://ai.example" [])
      as (_ & Hfetched & _).
    + reflexivity.
    + left. eexists. split; reflexivity.
    + reflexivity.
    + reflexivity.
    + reflexivity.
    + reflexivity.
    + discriminate.
    + reflexivity.
    + discriminate.
    + exact Hfetched.
Defined.

(** ** C8 *)

(** As stated, C8 fails when the notice cannot be deleted: the file does
    not resolve, the deletion in the except block raises, and no reply is
    attempted. *)
Lemma unresolved_counterexample :
  handle_image str_scalar stuck receipt []
  = ([ReplyText NOTICE (Ok 0);
      Log INFO "Fetching file path for - full";
      GetFile "full" (Ok {| File.file_path := None |});
      Log ERROR
        "Error processing image: File path is None - cannot construct image URL";
      Delete 0 (Raise (TelegramError "Message can't be deleted"))],
     Raise (TelegramError "Message can't be deleted")).
Proof. by vm_compute. Qed.

(** An image sent as a file, for which the platform has no path: nothing
    goes to the backend, and the failure is reported once the notice is
    gone. *)
Lemma handle_image_unresolved_witness :
  outbound_calls (events (handle_image str_scalar unresolvable scan) []) = []
  ∧ ∃ deleted rest,
      events (handle_image str_scalar unresolvable scan) []
      = [ReplyText NOTICE (Ok 0);
         Log INFO "Fetching file path for - scan.png";
         GetFile "scan.png" (Ok {| File.file_path := None |});
         Log ERROR
           "Error processing image: File path is None - cannot construct image URL";
         Delete 0 deleted] ++ rest
      ∧ match deleted with
        | Ok _ =>
            ∃ sent,
              rest
              = [ReplyText
                   (VStr "Error processing image: File path is None - cannot construct image URL")
                   sent]
              ∧ outcome (handle_image str_scalar unresolvable scan) []
                = match sent with Ok _ => Ok tt | Raise e' => Raise e' end
        | Raise e' =>
            rest = []
            ∧ outcome (handle_image str_scalar unresolvable scan) []
              = Raise e'
        end.
Proof.
  apply (handle_image_unresolved str_scalar unresolvable scan
           {| Message.text := None;
              Message.photo := [];
              Message.document := Some {| Document.file_id := "scan.png" |};
              Message.chat := {| Chat.id := -1001 |};
              Message.from_user :=
                Some {| User.username := Some "alice" |} |}
           "scan.png" {| User.username := Some "alice" |} 0
           (Ok {| File.file_path := None |})
           (ValueError "File path is None - cannot construct image URL")
           []).
  - reflexivity.
  - right. split; [reflexivity|].
    exists {| Document.file_id := "scan.png" |}. split; reflexivity.
  - reflexivity.
  - reflexivity.
  - reflexivity.
  - reflexivity.
Defined.

(** ** C6 *)

(** As stated, C6 fails when the final reply is refused: the backend answers
    200 with [{}], so the reply is the empty string, which the platform
    rejects after the notice is gone; the except block then deletes a second
    time, and no final reply is sent. *)
Lemma cleanup_counterexample :
  messaging (events (handle_message str_scalar (strict (Ok empty_answer))
                       "SplitBot" question) [])
  = [ReplyText NOTICE (Ok 0);
     Delete 0 (Ok tt);
     ReplyText (VStr "") (Raise (TelegramError "Message text is empty"));
     Delete 0 (Raise (TelegramError "Message to delete not found"))]
  ∧ outcome (handle_message str_scalar (strict (Ok empty_answer))
               "SplitBot" question) []
    = Raise (TelegramError "Message to delete not found").
Proof. split; by vm_compute. Qed.

Lemma notice_cleanup_witness :
  ∃ final id,
    messaging (tail (events (handle_message str_scalar (served (Ok owed))
                               "SplitBot" question) []))
    = [Delete 0 (Ok tt); ReplyText final (Ok id)].
Proof.
  apply (notice_cleanup str_scalar (served (Ok owed)) "SplitBot"
           (handle_message str_scalar (served (Ok owed)) "SplitBot")
           question [] 0
           (tail (events (handle_message str_scalar (served (Ok owed))
                            "SplitBot" question) []))).
  - left. reflexivity.
  - vm_compute. reflexivity.
  - vm_compute. repeat constructor; by eexists.
Defined.

(** ** C7 *)

(** As stated, C7 fails when the notice cannot be sent: that call is made
    before the try block, so its exception leaves the handler, unlogged and
    with no reply to the user. *)
Lemma boundary_counterexample :
  handle_message str_scalar kicked "SplitBot" question []
  = ([ReplyText NOTICE
        (Raise (TelegramError "Forbidden: bot was kicked from the group chat"))],
     Raise (TelegramError "Forbidden: bot was kicked from the group chat")).
Proof. by vm_compute. Qed.

(** ** C9 *)

(** As stated, C9 fails for an author without a username: [sender] goes out
    as null. *)
Lemma sender_counterexample :
  (λ call, call.2 !! "sender")
    <$> outbound_calls (events (handle_message str_scalar (served (Ok owed))
                                  "SplitBot" unnamed_question) [])
  = [Some VNone].
Proof. by vm_compute. Qed.

Lemma payload_sender_witness :
  SplitBotRequest.to_dict asked !! "sender" = Some (VStr "alice").
Proof.
  destruct (payload_sender str_scalar (served (Ok owed)) "SplitBot"
              question [] "https://ai.example/process_message"
              (SplitBotRequest.to_dict asked))
    as (message & author & [= <-] & [= <-] & Hsender & _).
  - left. vm_compute. in_list.
  - exact Hsender.
Defined.

(** ** Further examples *)

Lemma process_message_unconfigured_witness :
  process_message str_scalar unconfigured asked []
  = ([], Raise (ValueError "SPLIT_BOT_URL not found in environment variables")).
Proof.
  apply (process_message_unconfigured str_scalar unconfigured asked []).
  left. reflexivity.
Defined.

Lemma process_message_transport_error_witness :
  outcome (process_message str_scalar (served (Raise (HTTPError "timed out")))
             asked) []
  = Raise (HTTPError "timed out").
Proof.
  apply (process_message_transport_error str_scalar
           (served (Raise (HTTPError "timed out"))) asked []
           "https://ai.example/process_message"
           (SplitBotRequest.to_dict asked)).
  vm_compute. in_list.
Defined.

Lemma process_message_not_an_object_witness :
  outcome (process_message str_scalar (served (Ok listed)) asked) []
  = Raise (AttributeError "'list' object has no attribute 'get'").
Proof.
  apply (process_message_not_an_object str_scalar (served (Ok listed)) asked []
           "https://ai.example/process_message"
           (SplitBotRequest.to_dict asked) listed (VList [])).
  - vm_compute. in_list.
  - reflexivity.
  - reflexivity.
  - discriminate.
Defined.

Lemma process_message_error_truthiness_witness :
  outcome (process_message str_scalar (served (Ok owed)) asked) []
  = Ok (VStr "You owe $12").
Proof.
  rewrite (process_message_error_truthiness str_scalar (served (Ok owed))
             asked [] "https://ai.example/process_message"
             (SplitBotRequest.to_dict asked) owed
             (<["response" := VStr "You owe $12"]> (<["error" := VNone]> ∅))).
  - reflexivity.
  - vm_compute. in_list.
  - reflexivity.
  - reflexivity.
Defined.

Lemma to_dict_inj_witness :
  {| SplitBotRequest.message := "@SplitBot how much do I owe?";
     SplitBotRequest.group_id := pretty (-1001);
     SplitBotRequest.sender := Some "alice";
     SplitBotRequest.image_url := None |} = asked.
Proof. apply to_dict_inj. vm_compute. reflexivity. Defined.

Lemma answer_is_relayed_witness :
  ∃ pm id,
    messaging (events (handle_message str_scalar (served (Ok owed)) "SplitBot"
                         question) [])
    = [ReplyText NOTICE (Ok pm); Delete pm (Ok tt);
       ReplyText (VStr "You owe $12") (Ok id)].
Proof.
  destruct (answer_is_relayed str_scalar (served (Ok owed)) "SplitBot"
              (handle_message str_scalar (served (Ok owed)) "SplitBot")
              question [] "https://ai.example/process_message"
              (SplitBotRequest.to_dict asked) owed
              (<["response" := VStr "You owe $12"]> (<["error" := VNone]> ∅)))
    as [_ Hreply].
  - left. reflexivity.
  - vm_compute. in_list.
  - reflexivity.
  - reflexivity.
  - reflexivity.
  - vm_compute. repeat constructor; by eexists.
  - exact Hreply.
Defined.

Lemma failed_status_is_reported_witness :
  ∃ pm id,
    messaging (events (handle_message str_scalar (served (Ok refused))
                         "SplitBot" question) [])
    = [ReplyText NOTICE (Ok pm); Delete pm (Ok tt);
       ReplyText
         (VStr "Error processing message: Request failed with status code 500")
         (Ok id)].
Proof.
  destruct (failed_status_is_reported str_scalar (served (Ok refused))
              "SplitBot"
              (handle_message str_scalar (served (Ok refused)) "SplitBot")
              "message" question [] "https://ai.example/process_message"
              (SplitBotRequest.to_dict asked) refused
              (VDict (<["response" := VStr "You owe $12"]>
                        (<["error" := VNone]> ∅))))
    as [_ Hreply].
  - left. split; reflexivity.
  - vm_compute. in_list.
  - discriminate.
  - reflexivity.
  - vm_compute. repeat constructor; by eexists.
  - exact Hreply.
Defined.

Lemma group_id_identifies_chat_witness :
  SplitBotRequest.to_dict asked !! "group_id" = Some (VStr (pretty (-1001))).
Proof.
  apply (group_id_identifies_chat str_scalar (served (Ok owed)) "SplitBot"
           question question [] []
           "https://ai.example/process_message"
           "https://ai.example/process_message"
           (SplitBotRequest.to_dict asked) (SplitBotRequest.to_dict asked)
           {| Message.text := Some "@SplitBot how much do I owe?";
              Message.photo := [];
              Message.document := None;
              Message.chat := {| Chat.id := -1001 |};
              Message.from_user :=
                Some {| User.username := Some "alice" |} |}
           {| Message.text := Some "@SplitBot how much do I owe?";
              Message.photo := [];
              Message.document := None;
              Message.chat := {| Chat.id := -1001 |};
              Message.from_user :=
                Some {| User.username := Some "alice" |} |}).
  - left. vm_compute. in_list.
  - left. vm_compute. in_list.
  - reflexivity.
  - reflexivity.
Defined.

Lemma main_without_token_witness :
  outcome_of (main int_of_digits bare) = Ok tt
  ∧ transports (events_of (main int_of_digits bare)) = [].
Proof.
  rewrite (main_without_token int_of_digits bare).
  - split; reflexivity.
  - left. reflexivity.
Defined.

Lemma main_transport_witness :
  transports (events_of (main int_of_digits staging))
  = [RunPolling (built "123:abc") ALL_TYPES (Ok tt)].
Proof.
  apply (main_transport int_of_digits staging "123:abc").
  - reflexivity.
  - discriminate.
  - reflexivity.
Defined.

(** Production, end to end: the mode is read without regard to case, and
    the server is registered under the base URL. *)
Example production_serves :
  program int_of_digits production
  = ([Configured LEVEL_INFO;
      Logged INFO
        "Starting bot in production mode with webhook: https://bot.example/webhook on port 8443";
      RunWebhook (built "123:abc") "0.0.0.0" 8443 "/webhook"
        "https://bot.example/webhook" ALL_TYPES (Ok tt)],
     Ok tt).
Proof. vm_compute. reflexivity. Qed.

(** A failure of the transport that is not a ValueError leaves [main],
    unlogged. *)
Example contended_fails :
  main int_of_digits contended
  = ([Logged INFO "Starting bot in development mode with polling";
      RunPolling (built "123:abc") ALL_TYPES
        (Raise (TelegramError
                  "Conflict: terminated by other getUpdates request"))],
     Raise (TelegramError "Conflict: terminated by other getUpdates request")).
Proof. vm_compute. reflexivity. Qed.

Example misconfigured_reports :
  main int_of_digits misconfigured
  = ([Logged ERROR "Invalid PORT value: http. Must be an integer.";
      Logged ERROR
        "Configuration error: Invalid PORT value: http. Must be an integer"],
     Ok tt).
Proof. vm_compute. reflexivity. Qed.
